(** * Control de calidad: lotes procesados, validación y envío de informes

    Shallow embedding of [control_calidad/models.py],
    [control_calidad/serializers.py], [control_calidad/utils.py] and
    [control_calidad/views.py], with the persistence layer, the mail
    transport and the rendering libraries made explicit. *)

From Stdlib Require Import ZArith NArith Lia String Ascii.
From stdpp Require Import gmap list sorting.

Local Open Scope Z_scope.

(* ===================================================================== *)
(** * Part I. Definitions *)
(* ===================================================================== *)

(** ** Values *)

(** A [DecimalField(max_digits=5, decimal_places=2)] holds a [Decimal]
    with two decimal places: the model keeps it as the integer number of
    hundredths, so [Decimal('100')] is [10000] and [Decimal('0.01')] is [1].
    Addition, subtraction, comparison and [max] are exact on these. *)
Definition Decimal := Z.

Definition Decimal_0 : Decimal := 0.
Definition Decimal_100 : Decimal := 10000.
Definition Decimal_0_01 : Decimal := 1.

(** A Python [str] is a sequence of code points. *)
Definition str := list N.

(** A [bytes] object: each element is in [0, 256). *)
Definition bytes := list Z.

(** Literal for code-point strings. *)
Definition py (s : string) : str := map N_of_ascii (list_ascii_of_string s).

(** [GranoTipo(models.TextChoices)] *)
Inductive GranoTipo := CAFE | MAIZ | ARROZ | OTRO.

(** ** The model [LoteProcesado]

    [cliente] is the foreign key (the primary key of the user), [pk] is
    [None] until the row has been inserted.  [humedad] and [impurezas] are
    NOT NULL columns, but the Python attribute may still be [None] before
    the object is saved ([save] filters [None] out), so they are options
    here as well. *)
Record LoteProcesado := mkLote {
  pk : option Z;
  cliente : Z;
  codigo_lote : str;
  tipo_grano : GranoTipo;
  fecha_procesamiento : Z;
  cantidad_kg : Decimal;
  humedad : option Decimal;
  impurezas : option Decimal;
  grano_bueno : option Decimal;
  grano_defectuoso : option Decimal;
  observaciones : str;
  enviado : bool;
  creado_en : Z
}.

Definition set_pk (v : option Z) (l : LoteProcesado) : LoteProcesado :=
  mkLote v (cliente l) (codigo_lote l) (tipo_grano l) (fecha_procesamiento l)
    (cantidad_kg l) (humedad l) (impurezas l) (grano_bueno l)
    (grano_defectuoso l) (observaciones l) (enviado l) (creado_en l).

Definition set_grano_bueno (v : option Decimal) (l : LoteProcesado) : LoteProcesado :=
  mkLote (pk l) (cliente l) (codigo_lote l) (tipo_grano l) (fecha_procesamiento l)
    (cantidad_kg l) (humedad l) (impurezas l) v
    (grano_defectuoso l) (observaciones l) (enviado l) (creado_en l).

Definition set_grano_defectuoso (v : option Decimal) (l : LoteProcesado) : LoteProcesado :=
  mkLote (pk l) (cliente l) (codigo_lote l) (tipo_grano l) (fecha_procesamiento l)
    (cantidad_kg l) (humedad l) (impurezas l) (grano_bueno l)
    v (observaciones l) (enviado l) (creado_en l).

Definition set_enviado (v : bool) (l : LoteProcesado) : LoteProcesado :=
  mkLote (pk l) (cliente l) (codigo_lote l) (tipo_grano l) (fecha_procesamiento l)
    (cantidad_kg l) (humedad l) (impurezas l) (grano_bueno l)
    (grano_defectuoso l) (observaciones l) v (creado_en l).

Definition set_creado_en (v : Z) (l : LoteProcesado) : LoteProcesado :=
  mkLote (pk l) (cliente l) (codigo_lote l) (tipo_grano l) (fecha_procesamiento l)
    (cantidad_kg l) (humedad l) (impurezas l) (grano_bueno l)
    (grano_defectuoso l) (observaciones l) (enviado l) v.

(** ** [LoteProcesado.save]: the automatic percentages *)

(** Truth value of an attribute that is [None] or a [Decimal]:
    [None] and a zero [Decimal] are falsy. *)
Definition truthy (x : option Decimal) : bool :=
  match x with
  | Some d => negb (d =? 0)
  | None => false
  end.

(** [filter(None, xs)] keeps the truthy elements. *)
Fixpoint filter_None (xs : list (option Decimal)) : list Decimal :=
  match xs with
  | [] => []
  | Some d :: r => if truthy (Some d) then d :: filter_None r else filter_None r
  | None :: r => filter_None r
  end.

(** [sum(xs)]: left fold of [+] from [0]. *)
Definition py_sum (xs : list Decimal) : Decimal := fold_left Z.add xs 0.

(** The body of [save] before [super().save(...)]. *)
Definition save_calculo (self : LoteProcesado) : LoteProcesado :=
  match grano_defectuoso self, grano_bueno self with
  | None, Some _ =>
      let total := py_sum (filter_None [humedad self; impurezas self; grano_bueno self]) in
      set_grano_defectuoso (Some (Z.max Decimal_0 (Decimal_100 - total))) self
  | Some _, None =>
      let total := py_sum (filter_None [humedad self; impurezas self; grano_defectuoso self]) in
      set_grano_bueno (Some (Z.max Decimal_0 (Decimal_100 - total))) self
  | _, _ => self
  end.

(** ** Strings: [str.strip], [str.upper], [str.encode('utf-8')] *)

(** [str.isspace] for one code point (the white-space code points of the
    Unicode database used by CPython). *)
Definition isspace (c : N) : bool :=
  let z := Z.of_N c in
  ((0x09 <=? z) && (z <=? 0x0D)) || ((0x1C <=? z) && (z <=? 0x20))
  || (z =? 0x85) || (z =? 0xA0) || (z =? 0x1680)
  || ((0x2000 <=? z) && (z <=? 0x200A))
  || (z =? 0x2028) || (z =? 0x2029) || (z =? 0x202F) || (z =? 0x205F)
  || (z =? 0x3000).

Fixpoint lstrip (s : str) : str :=
  match s with
  | [] => []
  | c :: r => if isspace c then lstrip r else s
  end.

Definition rstrip (s : str) : str := rev (lstrip (rev s)).

(** [s.strip()] *)
Definition strip (s : str) : str := rstrip (lstrip s).

(** [s.upper()]: every code point is replaced by its full upper-case
    mapping, which may be several code points.  The mapping is a table of
    the Unicode database and is a parameter [ToUpperFull] below. *)
Definition upper (ToUpperFull : N -> list N) (s : str) : str :=
  flat_map ToUpperFull s.

(** The ASCII part of the upper-case table (used for concrete runs). *)
Definition ascii_ToUpperFull (c : N) : list N :=
  if ((97 <=? c) && (c <=? 122))%N then [(c - 32)%N] else [c].

(** A Unicode scalar value: a code point that is not a surrogate. *)
Definition escalar (c : N) : bool :=
  ((c <? 0xD800) || ((0xDFFF <? c) && (c <? 0x110000)))%N.

(** UTF-8 encoding of one code point; [None] is [UnicodeEncodeError]
    (a surrogate, or a value that is not a code point). *)
Definition utf8_char (c : N) : option bytes :=
  let z := Z.of_N c in
  if z <? 0x80 then Some [z]
  else if z <? 0x800 then
    Some [Z.lor 0xC0 (Z.shiftr z 6); Z.lor 0x80 (Z.land z 0x3F)]
  else if z <? 0x10000 then
    if (0xD800 <=? z) && (z <=? 0xDFFF) then None
    else Some [Z.lor 0xE0 (Z.shiftr z 12);
               Z.lor 0x80 (Z.land (Z.shiftr z 6) 0x3F);
               Z.lor 0x80 (Z.land z 0x3F)]
  else if z <? 0x110000 then
    Some [Z.lor 0xF0 (Z.shiftr z 18);
          Z.lor 0x80 (Z.land (Z.shiftr z 12) 0x3F);
          Z.lor 0x80 (Z.land (Z.shiftr z 6) 0x3F);
          Z.lor 0x80 (Z.land z 0x3F)]
  else None.

(** [s.encode('utf-8')] *)
Fixpoint encode_utf8 (s : str) : option bytes :=
  match s with
  | [] => Some []
  | c :: r =>
      match utf8_char c, encode_utf8 r with
      | Some b, Some br => Some (b ++ br)
      | _, _ => None
      end
  end.

(** ** [hashlib.sha256(...).digest()] (FIPS 180-4) *)

Module SHA256.

Definition w32 (x : Z) : Z := x mod 2 ^ 32.
Definition add32 (x y : Z) : Z := w32 (x + y).
Definition not32 (x : Z) : Z := Z.lxor x 0xFFFFFFFF.
Definition rotr (n x : Z) : Z :=
  Z.lor (Z.shiftr x n) (w32 (Z.shiftl x (32 - n))).
Definition shr (n x : Z) : Z := Z.shiftr x n.

Definition Ch (x y z : Z) : Z := Z.lxor (Z.land x y) (Z.land (not32 x) z).
Definition Maj (x y z : Z) : Z :=
  Z.lxor (Z.lxor (Z.land x y) (Z.land x z)) (Z.land y z).
Definition Sigma0 (x : Z) : Z := Z.lxor (Z.lxor (rotr 2 x) (rotr 13 x)) (rotr 22 x).
Definition Sigma1 (x : Z) : Z := Z.lxor (Z.lxor (rotr 6 x) (rotr 11 x)) (rotr 25 x).
Definition sigma0 (x : Z) : Z := Z.lxor (Z.lxor (rotr 7 x) (rotr 18 x)) (shr 3 x).
Definition sigma1 (x : Z) : Z := Z.lxor (Z.lxor (rotr 17 x) (rotr 19 x)) (shr 10 x).

(** The first [n] primes, by trial division. *)
Definition es_primo (p : Z) : bool :=
  (1 <? p) && forallb (fun d => negb (p mod Z.of_nat d =? 0)) (seq 2 (Z.to_nat p - 2)).

Definition primos (n : nat) : list Z :=
  take n (filter (fun p => es_primo p = true) (map Z.of_nat (seq 2 310))).

(** Integer cube root of [x], found bit by bit from bit [n - 1] down. *)
Fixpoint raiz_cubica (n : nat) (x acc : Z) : Z :=
  match n with
  | O => acc
  | S n' =>
      let cand := acc + 2 ^ Z.of_nat n' in
      if cand * cand * cand <=? x then raiz_cubica n' x cand else raiz_cubica n' x acc
  end.

(** The round constants: the first 32 bits of the fractional parts of
    the cube roots of the first 64 primes. *)
Definition K : list Z :=
  Eval vm_compute in map (fun p => w32 (raiz_cubica 36 (p * 2 ^ 96) 0)) (primos 64).

(** The eight working variables / the chaining value. *)
Record estado := mkEstado { a : Z; b : Z; c : Z; d : Z; e : Z; f : Z; g : Z; h : Z }.

(** The initial value: the first 32 bits of the fractional parts of the
    square roots of the first 8 primes. *)
Definition frac_raiz (p : Z) : Z := w32 (Z.sqrt (p * 2 ^ 64)).

Definition H0 : estado :=
  Eval vm_compute in
    mkEstado (frac_raiz 2) (frac_raiz 3) (frac_raiz 5) (frac_raiz 7)
             (frac_raiz 11) (frac_raiz 13) (frac_raiz 17) (frac_raiz 19).

(** Padding: the byte [0x80], zero bytes up to 56 modulo 64, then the
    bit length as eight big-endian bytes. *)
Definition be_bytes (n : nat) (x : Z) : bytes :=
  map (fun i => Z.land (Z.shiftr x (8 * Z.of_nat i)) 0xFF) (rev (seq 0 n)).

Definition pad (m : bytes) : bytes :=
  let len := Z.of_nat (length m) in
  let k := (55 - len) mod 64 in
  m ++ [0x80] ++ repeat 0 (Z.to_nat k) ++ be_bytes 8 (8 * len).

(** Big-endian 32-bit words of a byte string. *)
Fixpoint words (m : bytes) : list Z :=
  match m with
  | b0 :: b1 :: b2 :: b3 :: r =>
      (Z.lor (Z.shiftl b0 24) (Z.lor (Z.shiftl b1 16) (Z.lor (Z.shiftl b2 8) b3)))
      :: words r
  | _ => []
  end.

(** One round with message word [w] and constant [k]. *)
Definition round (s : estado) (k w : Z) : estado :=
  let T1 := add32 (add32 (add32 (add32 (h s) (Sigma1 (e s))) (Ch (e s) (f s) (g s))) k) w in
  let T2 := add32 (Sigma0 (a s)) (Maj (a s) (b s) (c s)) in
  mkEstado (add32 T1 T2) (a s) (b s) (c s) (add32 (d s) T1) (e s) (f s) (g s).

(** The message schedule is kept as a window of the last sixteen words:
    the head is [W t], and the next word is
    [sigma1 (W (t+14)) + W (t+9) + sigma0 (W (t+1)) + W t]. *)
Definition next_word (win : list Z) : Z :=
  add32 (add32 (add32 (sigma1 (nth 14 win 0)) (nth 9 win 0))
               (sigma0 (nth 1 win 0))) (nth 0 win 0).

Fixpoint rounds (ks : list Z) (win : list Z) (s : estado) : estado :=
  match ks with
  | [] => s
  | k :: ks' =>
      rounds ks' (tl win ++ [next_word win]) (round s k (nth 0 win 0))
  end.

Definition compress (hv : estado) (block : bytes) : estado :=
  let s := rounds K (words block) hv in
  mkEstado (add32 (a hv) (a s)) (add32 (b hv) (b s)) (add32 (c hv) (c s))
           (add32 (d hv) (d s)) (add32 (e hv) (e s)) (add32 (f hv) (f s))
           (add32 (g hv) (g s)) (add32 (h hv) (h s)).

Fixpoint blocks (n : nat) (hv : estado) (m : bytes) : estado :=
  match n with
  | O => hv
  | S n' => blocks n' (compress hv (take 64 m)) (drop 64 m)
  end.

Definition digest (m : bytes) : bytes :=
  let p := pad m in
  let s := blocks (length p / 64)%nat H0 p in
  be_bytes 4 (a s) ++ be_bytes 4 (b s) ++ be_bytes 4 (c s) ++ be_bytes 4 (d s)
  ++ be_bytes 4 (e s) ++ be_bytes 4 (f s) ++ be_bytes 4 (g s) ++ be_bytes 4 (h s).

End SHA256.

(** ** [base64.urlsafe_b64encode] *)

(** The character of a six-bit value in the URL-safe alphabet
    [A-Z a-z 0-9 - _]. *)
Definition b64_char (v : Z) : Z :=
  if v <? 26 then 65 + v
  else if v <? 52 then 97 + (v - 26)
  else if v <? 62 then 48 + (v - 52)
  else if v =? 62 then 45
  else 95.

Fixpoint urlsafe_b64encode (bs : bytes) : bytes :=
  match bs with
  | [] => []
  | [x] =>
      [b64_char (Z.shiftr x 2); b64_char (Z.shiftl (Z.land x 3) 4); 61; 61]
  | [x; y] =>
      [b64_char (Z.shiftr x 2);
       b64_char (Z.lor (Z.shiftl (Z.land x 3) 4) (Z.shiftr y 4));
       b64_char (Z.shiftl (Z.land y 15) 2); 61]
  | x :: y :: z :: r =>
      b64_char (Z.shiftr x 2)
      :: b64_char (Z.lor (Z.shiftl (Z.land x 3) 4) (Z.shiftr y 4))
      :: b64_char (Z.lor (Z.shiftl (Z.land y 15) 2) (Z.shiftr z 6))
      :: b64_char (Z.land z 63)
      :: urlsafe_b64encode r
  end.

(** [s.encode('ascii')] for literals in examples. *)
Definition ascii_bytes (s : string) : bytes := map (fun c => Z.of_N c) (py s).

(** ** Users, exceptions, responses *)

(** A user as the quality-control module reads it.  Both [cedula] and
    [email] are read with [getattr(..., None)]: [None] stands for an
    attribute that is missing or that holds [None].  The user model of
    the repository, [usuarios.Usuario], declares no [cedula]: for its
    instances the field is [None] (see [sin_cedulas] below); the record
    keeps the field because the views are written against any user model
    of [settings.AUTH_USER_MODEL]. *)
Record Usuario := mkUsuario {
  username : str;
  get_full_name : str;
  email : option str;
  cedula : option str
}.

(** Truth value of an attribute that is [None] or a [str]. *)
Definition str_truthy (x : option str) : bool :=
  match x with
  | Some (_ :: _) => true
  | _ => false
  end.

Inductive Mensaje :=
| CedulaRequerida       (* "Cédula de usuario requerida para encriptar PDF." *)
| SinCorreo             (* "El cliente no tiene dirección de correo registrada." *)
| SinClavePrimaria.     (* forced update of an object that has no primary key *)

Inductive Excepcion :=
| ValueError (m : Mensaje)
| UnicodeEncodeError
| Http404
| DoesNotExist
| IntegrityError
| DatabaseError
| ErrorExterno (n : Z).  (* raised inside a library: canvas, templates, transport *)

Inductive Campo :=
| c_cliente | c_codigo_lote | c_tipo_grano | c_fecha_procesamiento
| c_cantidad_kg | c_humedad | c_impurezas | c_grano_bueno
| c_grano_defectuoso | c_observaciones | c_enviado | c_creado_en.

Inductive ErrorValidacion :=
| CampoInvalido (c : Campo)  (* an entry of [serializer.errors] for a field *)
| SumaPorcentajes.           (* "La suma de porcentajes no puede exceder 100%." *)

Inductive Cuerpo :=
| CuerpoLote (l : LoteProcesado)               (* [serializer.data] *)
| CuerpoErrores (errs : list ErrorValidacion)  (* [serializer.errors] *)
| CuerpoSinCedula                              (* {"error": "El cliente no tiene cédula registrada."} *)
| CuerpoEnviado                                (* {"mensaje": "Informe enviado exitosamente."} *)
| CuerpoErrorInforme (detalle : Excepcion)     (* {"error": ..., "detalle": str(e)} *)
| CuerpoNoEncontrado.

Record Response := mkResponse { status : Z; cuerpo : Cuerpo }.

Definition HTTP_200_OK : Z := 200.
Definition HTTP_201_CREATED : Z := 201.
Definition HTTP_400_BAD_REQUEST : Z := 400.
Definition HTTP_404_NOT_FOUND : Z := 404.
Definition HTTP_500_INTERNAL_SERVER_ERROR : Z := 500.

Definition client_error (r : Response) : Prop := 400 <= status r < 500.

(** ** The outside world: tables, clock, side effects *)

Record Contexto := mkContexto {
  ctx_cliente : str;
  ctx_codigo_lote : str;
  ctx_fecha : Z
}.

Record EmailMultiAlternatives := mkEmail {
  subject : str;
  body : str;
  from_email : str;
  to : list str;
  alternatives : list (str * str);
  attachments : list (str * bytes * str)
}.

Inductive Nivel := INFO | WARNING | ERROR.

Inductive Registro :=
| LoteRegistrado
| LoteActualizado (k : Z)
| ClienteSinCedula (k : Z)
| InformeEnviado (k : Z) (destino : option str)
| ErrorInforme (k : Z) (e : Excepcion)
| ErrorEnviando (codigo : str) (e : Excepcion).

(** Observable side effects, oldest first. *)
Inductive Evento :=
| PdfGenerado (codigo : str) (pdf : bytes)
| CorreoEnviado (m : EmailMultiAlternatives)
| Log (n : Nivel) (r : Registro).

Record Mundo := mkMundo {
  lotes : gmap Z LoteProcesado;   (* table of [LoteProcesado], by primary key *)
  usuarios : gmap Z Usuario;      (* table of the user model, by primary key *)
  secuencia : Z;                  (* next primary key handed out on insert *)
  reloj : Z;                      (* current time *)
  azar : bytes;                   (* what [os.urandom] hands out next *)
  bitacora : list Evento
}.

Definition set_lotes (t : gmap Z LoteProcesado) (w : Mundo) : Mundo :=
  mkMundo t (usuarios w) (secuencia w) (reloj w) (azar w) (bitacora w).

Definition set_secuencia (n : Z) (w : Mundo) : Mundo :=
  mkMundo (lotes w) (usuarios w) n (reloj w) (azar w) (bitacora w).

Definition anotar (ev : Evento) (w : Mundo) : Mundo :=
  mkMundo (lotes w) (usuarios w) (secuencia w) (reloj w) (azar w) (bitacora w ++ [ev]).

(** ** Reading the side effects of a run *)

Definition es_pdf (ev : Evento) : bool :=
  match ev with
  | PdfGenerado _ _ => true
  | _ => false
  end.

Definition es_correo (ev : Evento) : bool :=
  match ev with
  | CorreoEnviado _ => true
  | _ => false
  end.

(** The client lacks the e-mail address or the identifier. *)
Definition sin_correo_o_cedula (u : Usuario) : bool :=
  negb (str_truthy (email u)) || negb (str_truthy (cedula u)).

(** ** A state and exception monad

    A computation runs on a state [S] and either returns or raises; the
    state it leaves behind is kept in both cases (no rollback). *)

Inductive Res (A : Type) :=
| Ok (x : A)
| Raise (e : Excepcion).
Arguments Ok {A} x.
Arguments Raise {A} e.

Definition M (S A : Type) : Type := S -> Res A * S.

Definition ret {S A} (x : A) : M S A := fun s => (Ok x, s).

Definition bind {S A B} (m : M S A) (k : A -> M S B) : M S B :=
  fun s =>
    match m s with
    | (Ok x, s') => k x s'
    | (Raise e, s') => (Raise e, s')
    end.

Definition raise {S A} (e : Excepcion) : M S A := fun s => (Raise e, s).

Definition try_except {S A} (m : M S A) (handler : Excepcion -> M S A) : M S A :=
  fun s =>
    match m s with
    | (Ok x, s') => (Ok x, s')
    | (Raise e, s') => handler e s'
    end.

Definition gets {S A} (f : S -> A) : M S A := fun s => (Ok (f s), s).

Definition modify {S} (f : S -> S) : M S unit := fun s => (Ok tt, f s).

Notation "x <- m ;; k" := (bind m (fun x => k))
  (at level 100, m at next level, right associativity).
Notation "m ;; k" := (bind m (fun _ => k))
  (at level 100, right associativity).

(** State of a computation that works on one Python object [lote]
    (mutated in place) in the world. *)
Definition Marco : Type := LoteProcesado * Mundo.

Definition en_mundo {A} (m : M Mundo A) : M Marco A :=
  fun s => let (r, w') := m (snd s) in (r, (fst s, w')).

Definition con_objeto {A} (lote : LoteProcesado) (m : M Marco A) : M Mundo A :=
  fun w => let (r, s') := m (lote, w) in (r, snd s').

Definition self : M Marco LoteProcesado := gets fst.

Definition logger (n : Nivel) (r : Registro) : M Mundo unit :=
  modify (anotar (Log n r)).

(** ** Persistence: [models.Model.save] *)

Global Instance Campo_eq_dec : EqDecision Campo.
Proof. solve_decision. Defined.

Definition elige {A} (c c' : Campo) (x y : A) : A :=
  if decide (c = c') then x else y.

(** Copy column [c] of the object [o] into the row [fila]. *)
Definition copiar_campo (c : Campo) (o fila : LoteProcesado) : LoteProcesado :=
  mkLote (pk fila)
    (elige c c_cliente (cliente o) (cliente fila))
    (elige c c_codigo_lote (codigo_lote o) (codigo_lote fila))
    (elige c c_tipo_grano (tipo_grano o) (tipo_grano fila))
    (elige c c_fecha_procesamiento (fecha_procesamiento o) (fecha_procesamiento fila))
    (elige c c_cantidad_kg (cantidad_kg o) (cantidad_kg fila))
    (elige c c_humedad (humedad o) (humedad fila))
    (elige c c_impurezas (impurezas o) (impurezas fila))
    (elige c c_grano_bueno (grano_bueno o) (grano_bueno fila))
    (elige c c_grano_defectuoso (grano_defectuoso o) (grano_defectuoso fila))
    (elige c c_observaciones (observaciones o) (observaciones fila))
    (elige c c_enviado (enviado o) (enviado fila))
    (elige c c_creado_en (creado_en o) (creado_en fila)).

(** [unique=True] on [codigo_lote]: no other row carries the code. *)
Definition codigo_libre (k : Z) (codigo : str) (t : gmap Z LoteProcesado) : bool :=
  bool_decide (map_Forall (fun k' r => k' = k \/ codigo_lote r <> codigo) t).

(** The constraints of the table that concern the columns [cs] of the
    row [fila] stored under key [k]: NOT NULL on [humedad] and
    [impurezas], UNIQUE on [codigo_lote], the foreign key [cliente]. *)
Definition restricciones (cs : list Campo) (k : Z) (fila : LoteProcesado) (w : Mundo) : bool :=
  (bool_decide (c_humedad ∉ cs) || bool_decide (is_Some (humedad fila)))
  && (bool_decide (c_impurezas ∉ cs) || bool_decide (is_Some (impurezas fila)))
  && (bool_decide (c_codigo_lote ∉ cs) || codigo_libre k (codigo_lote fila) (lotes w))
  && (bool_decide (c_cliente ∉ cs) || bool_decide (is_Some (usuarios w !! cliente fila))).

Definition todos_los_campos : list Campo :=
  [c_cliente; c_codigo_lote; c_tipo_grano; c_fecha_procesamiento; c_cantidad_kg;
   c_humedad; c_impurezas; c_grano_bueno; c_grano_defectuoso; c_observaciones;
   c_enviado; c_creado_en].

(** [super().save(update_fields=...)].
    - an empty [update_fields] does nothing;
    - a non-empty one updates those columns of the row of [self.pk], and
      raises when the object has no key or the row is gone;
    - without [update_fields] the row is updated when the key exists in the
      table and inserted otherwise; an insert takes the next key of the
      sequence and stamps [creado_en] ([auto_now_add]).
    A constraint violation raises [IntegrityError] and writes nothing;
    when it is the insert that fails, the object has already been stamped
    and keeps the stamp (it still has no key if it had none). *)
Definition Model_save (update_fields : option (list Campo)) : M Marco unit :=
  fun s =>
    let (o, w) := s in
    match update_fields with
    | Some [] => (Ok tt, s)
    | Some cs =>
        match pk o with
        | None => (Raise (ValueError SinClavePrimaria), s)
        | Some k =>
            match lotes w !! k with
            | None => (Raise DatabaseError, s)
            | Some fila =>
                let fila' := foldl (fun acc c => copiar_campo c o acc) fila cs in
                if restricciones cs k fila' w
                then (Ok tt, (o, set_lotes (<[k := fila']> (lotes w)) w))
                else (Raise IntegrityError, s)
            end
        end
    | None =>
        match pk o with
        | Some k =>
            match lotes w !! k with
            | Some _ =>
                if restricciones todos_los_campos k o w
                then (Ok tt, (o, set_lotes (<[k := o]> (lotes w)) w))
                else (Raise IntegrityError, s)
            | None =>
                let o' := set_creado_en (reloj w) o in
                if restricciones todos_los_campos k o' w
                then (Ok tt, (o', set_lotes (<[k := o']> (lotes w)) w))
                else (Raise IntegrityError, (o', w))
            end
        | None =>
            let k := secuencia w in
            let o' := set_creado_en (reloj w) (set_pk (Some k) o) in
            if restricciones todos_los_campos k o' w
               && bool_decide (lotes w !! k = None)
            then (Ok tt, (o', set_secuencia (k + 1) (set_lotes (<[k := o']> (lotes w)) w)))
            else (Raise IntegrityError, (set_creado_en (reloj w) o, w))
        end
    end.

(** [LoteProcesado.save]; its arguments are handed on to [super().save]. *)
Definition save (update_fields : option (list Campo)) : M Marco unit :=
  modify (fun s : Marco => (save_calculo (fst s), snd s)) ;;
  Model_save update_fields.

(** [lote.cliente]: the related user. *)
Definition lote_cliente (o : LoteProcesado) : M Mundo Usuario :=
  fun w =>
    match usuarios w !! cliente o with
    | Some u => (Ok u, w)
    | None => (Raise DoesNotExist, w)
    end.

(** [get_object_or_404(LoteProcesado, pk=pk)]: the object loaded from
    the row of key [k] carries that key. *)
Definition get_object_or_404 (k : Z) : M Mundo LoteProcesado :=
  fun w =>
    match lotes w !! k with
    | Some fila => (Ok (set_pk (Some k) fila), w)
    | None => (Raise Http404, w)
    end.

(** ** Libraries and settings outside the repository *)

Inductive Plantilla := email_html | email_txt.

Class Externos := {
  (** full upper-case mapping of the Unicode database ([str.upper]) *)
  ToUpperFull : N -> list N;
  (** the outcome of the body of [generar_pdf_lote]: the page drawn on
      the reportlab canvas and saved to bytes, or the exception raised on
      the way.  The layout is not modelled.  With a canvas class that is
      no context manager, entering the [with] block raises on every call
      and this is always [inl]. *)
  canvas_pdf : LoteProcesado -> Usuario -> Excepcion + bytes;
  (** [Fernet(key).encrypt(data)] with the IV and the time it draws *)
  Fernet_encrypt : bytes -> bytes -> Z -> bytes -> bytes;
  (** [render_to_string(template, context)] *)
  render_to_string : Plantilla -> Contexto -> Excepcion + str;
  (** [settings.DEFAULT_FROM_EMAIL] *)
  DEFAULT_FROM_EMAIL : str;
  (** [email.send(fail_silently=False)]: [None] when the transport took
      the message, [Some exc] when it raised [exc] *)
  email_send : EmailMultiAlternatives -> option Excepcion
}.

(** ** The serializer [LoteProcesadoSerializer] *)

(** The writable fields of a request, or of [validated_data]: a field is
    [None] when its key is absent.  The nullable percentages can also be
    present with the value [None] ([Some None]). *)
Record Datos := mkDatos {
  d_cliente : option Z;
  d_codigo_lote : option str;
  d_tipo_grano : option GranoTipo;
  d_fecha_procesamiento : option Z;
  d_cantidad_kg : option Decimal;
  d_humedad : option Decimal;
  d_impurezas : option Decimal;
  d_grano_bueno : option (option Decimal);
  d_grano_defectuoso : option (option Decimal);
  d_observaciones : option str
}.

Definition set_d_codigo_lote (v : option str) (x : Datos) : Datos :=
  mkDatos (d_cliente x) v (d_tipo_grano x) (d_fecha_procesamiento x)
    (d_cantidad_kg x) (d_humedad x) (d_impurezas x) (d_grano_bueno x)
    (d_grano_defectuoso x) (d_observaciones x).

Definition set_d_observaciones (v : option str) (x : Datos) : Datos :=
  mkDatos (d_cliente x) (d_codigo_lote x) (d_tipo_grano x) (d_fecha_procesamiento x)
    (d_cantidad_kg x) (d_humedad x) (d_impurezas x) (d_grano_bueno x)
    (d_grano_defectuoso x) v.

(** [data.get(key, default)] *)
Definition dict_get {A} (entry : option A) (default : A) : A :=
  match entry with
  | Some v => v
  | None => default
  end.

(** [getattr(self.instance, name, None)] *)
Definition getattr {A} (instance : option LoteProcesado)
    (attr : LoteProcesado -> option A) : option A :=
  match instance with
  | Some o => attr o
  | None => None
  end.

(** [LoteProcesadoSerializer.validate]: [inl] is the raised
    [ValidationError]. *)
Definition validate (instance : option LoteProcesado) (data : Datos)
    : ErrorValidacion + Datos :=
  let h := dict_get (Some <$> d_humedad data) (getattr instance humedad) in
  let i := dict_get (Some <$> d_impurezas data) (getattr instance impurezas) in
  let b := dict_get (d_grano_bueno data) (getattr instance grano_bueno) in
  let d := dict_get (d_grano_defectuoso data) (getattr instance grano_defectuoso) in
  match h, i, b, d with
  | Some h, Some i, Some b, Some d =>
      let total := h + i + b + d in
      if total >? Decimal_100 then inl SumaPorcentajes else inr data
  | _, _, _, _ => inr data
  end.

(** One field of the request: [requerido] fields must be present unless
    the update is partial, and a present value must pass [ok]. *)
Definition campo {A} (c : Campo) (requerido partial : bool)
    (valor : option A) (ok : A -> bool) : list ErrorValidacion :=
  match valor with
  | None => if requerido && negb partial then [CampoInvalido c] else []
  | Some v => if ok v then [] else [CampoInvalido c]
  end.

Definition en_rango (lo hi v : Decimal) : bool := (lo <=? v) && (v <=? hi).

Definition nulo_o {A} (ok : A -> bool) (v : option A) : bool :=
  match v with
  | None => true
  | Some x => ok x
  end.

(** [ProhibitNullCharactersValidator] of the text fields. *)
Definition sin_nulos (v : str) : bool := negb (bool_decide (0%N ∈ v)).

(** [UniqueValidator] of [codigo_lote]: no row other than the instance
    being updated has the code. *)
Definition codigo_unico (instance : option LoteProcesado) (codigo : str)
    (t : gmap Z LoteProcesado) : bool :=
  bool_decide (map_Forall
    (fun k' r => Some (Some k') = pk <$> instance \/ codigo_lote r <> codigo) t).

Section Aplicacion.

Context `{Externos}.

(** [LoteProcesadoSerializer.validate_codigo_lote] *)
Definition validate_codigo_lote (value : str) : str :=
  upper ToUpperFull (strip value).

(** The field-level pass of the serializer: the checks that the
    [ModelSerializer] derives from the declaration of the model
    (required fields, the related user must exist, white space trimmed
    from text and no null character in it, no blank or over-long or
    duplicate [codigo_lote], the range validators of the decimals), then
    [validate_codigo_lote]. *)
Definition to_internal_value (instance : option LoteProcesado) (partial : bool)
    (data : Datos) (w : Mundo) : list ErrorValidacion + Datos :=
  let codigo := strip <$> d_codigo_lote data in
  let errores :=
    campo c_cliente true partial (d_cliente data)
      (fun u => bool_decide (is_Some (usuarios w !! u)))
    ++ campo c_codigo_lote true partial codigo
      (fun v => negb (bool_decide (v = []))
                && (Z.of_nat (length v) <=? 50)
                && sin_nulos v
                && codigo_unico instance v (lotes w))
    ++ campo c_fecha_procesamiento true partial (d_fecha_procesamiento data)
      (fun _ => true)
    ++ campo c_cantidad_kg true partial (d_cantidad_kg data)
      (fun v => (Decimal_0_01 <=? v) && (v <? 10 ^ 10))
    ++ campo c_humedad true partial (d_humedad data) (en_rango Decimal_0 Decimal_100)
    ++ campo c_impurezas true partial (d_impurezas data) (en_rango Decimal_0 Decimal_100)
    ++ campo c_grano_bueno false partial (d_grano_bueno data)
      (nulo_o (en_rango Decimal_0 Decimal_100))
    ++ campo c_grano_defectuoso false partial (d_grano_defectuoso data)
      (nulo_o (en_rango Decimal_0 Decimal_100))
    ++ campo c_observaciones false partial (strip <$> d_observaciones data)
      sin_nulos in
  match errores with
  | [] =>
      inr (set_d_codigo_lote (validate_codigo_lote <$> codigo)
             (set_d_observaciones (strip <$> d_observaciones data) data))
  | _ => inl errores
  end.

(** [serializer.is_valid()]: [inr] carries [validated_data], [inl]
    carries [serializer.errors]. *)
Definition is_valid (instance : option LoteProcesado) (partial : bool)
    (data : Datos) (w : Mundo) : list ErrorValidacion + Datos :=
  match to_internal_value instance partial data w with
  | inl errs => inl errs
  | inr attrs =>
      match validate instance attrs with
      | inl err => inl [err]
      | inr attrs' => inr attrs'
      end
  end.

(** The constructor call on [validated_data], with the defaults of the model.
    [cliente], [fecha_procesamiento] and [cantidad_kg] have no default:
    without them the insert violates NOT NULL. *)
Definition nuevo_lote (vd : Datos) : option LoteProcesado :=
  match d_cliente vd, d_fecha_procesamiento vd, d_cantidad_kg vd with
  | Some u, Some f, Some q =>
      Some (mkLote None u (dict_get (d_codigo_lote vd) [])
              (dict_get (d_tipo_grano vd) OTRO) f q
              (d_humedad vd) (d_impurezas vd)
              (dict_get (d_grano_bueno vd) None)
              (dict_get (d_grano_defectuoso vd) None)
              (dict_get (d_observaciones vd) []) false 0)
  | _, _, _ => None
  end.

(** [serializer.save()] without an instance:
    [LoteProcesado.objects.create] on [validated_data]. *)
Definition create (vd : Datos) : M Mundo LoteProcesado :=
  match nuevo_lote vd with
  | None => raise IntegrityError
  | Some o => con_objeto o (save None ;; self)
  end.

(** [setattr(instance, attr, value)] for every entry of
    [validated_data]. *)
Definition asignar (vd : Datos) (o : LoteProcesado) : LoteProcesado :=
  mkLote (pk o)
    (dict_get (d_cliente vd) (cliente o))
    (dict_get (d_codigo_lote vd) (codigo_lote o))
    (dict_get (d_tipo_grano vd) (tipo_grano o))
    (dict_get (d_fecha_procesamiento vd) (fecha_procesamiento o))
    (dict_get (d_cantidad_kg vd) (cantidad_kg o))
    (dict_get (Some <$> d_humedad vd) (humedad o))
    (dict_get (Some <$> d_impurezas vd) (impurezas o))
    (dict_get (d_grano_bueno vd) (grano_bueno o))
    (dict_get (d_grano_defectuoso vd) (grano_defectuoso o))
    (dict_get (d_observaciones vd) (observaciones o))
    (enviado o) (creado_en o).

(** [serializer.save()] with an instance. *)
Definition update (instance : LoteProcesado) (vd : Datos) : M Mundo LoteProcesado :=
  con_objeto (asignar vd instance) (save None ;; self).

(** ** [utils.py] *)

(** [generar_pdf_lote(lote)] *)
Definition generar_pdf_lote : M Marco bytes :=
  o <- self ;;
  u <- en_mundo (lote_cliente o) ;;
  match canvas_pdf o u with
  | inl exc => raise exc
  | inr pdf =>
      en_mundo (modify (anotar (PdfGenerado (codigo_lote o) pdf))) ;;
      ret pdf
  end.

(** [encriptar_con_cedula(pdf_bytes, cedula)] returns [(token, key)]. *)
Definition encriptar_con_cedula (pdf_bytes : bytes) (cedula : option str)
    : M Mundo (bytes * bytes) :=
  if negb (str_truthy cedula) then raise (ValueError CedulaRequerida)
  else
    match encode_utf8 (dict_get cedula []) with
    | None => raise UnicodeEncodeError
    | Some encoded =>
        let key_raw := SHA256.digest encoded in
        let key := urlsafe_b64encode key_raw in
        w <- gets (fun w : Mundo => w) ;;
        let token := Fernet_encrypt key (azar w) (reloj w) pdf_bytes in
        ret (token, key)
    end.

(** The message that [enviar_informe_por_correo] builds. *)
Definition mensaje_informe (o : LoteProcesado) (u : Usuario) (email_destino : str)
    (html_body text_body : str) (pdf_bytes : bytes) : EmailMultiAlternatives :=
  mkEmail (py "Informe Calidad Lote " ++ codigo_lote o)
    text_body DEFAULT_FROM_EMAIL [email_destino]
    [(html_body, py "text/html")]
    [(py "informe_" ++ codigo_lote o ++ py ".pdf", pdf_bytes, py "application/pdf")].

Definition render (p : Plantilla) (ctx : Contexto) : M Marco str :=
  match render_to_string p ctx with
  | inl exc => raise exc
  | inr s => ret s
  end.

(** [email.send(fail_silently=False)] *)
Definition send (m : EmailMultiAlternatives) : M Marco unit :=
  match email_send m with
  | Some exc => raise exc
  | None => en_mundo (modify (anotar (CorreoEnviado m)))
  end.

(** [enviar_informe_por_correo(lote, pdf_bytes)] *)
Definition enviar_informe_por_correo (pdf_bytes : bytes) : M Marco unit :=
  o <- self ;;
  u <- en_mundo (lote_cliente o) ;;
  if negb (str_truthy (email u)) then raise (ValueError SinCorreo)
  else
    let email_destino := dict_get (email u) [] in
    let contexto := mkContexto (get_full_name u) (codigo_lote o) (fecha_procesamiento o) in
    html_body <- render email_html contexto ;;
    text_body <- render email_txt contexto ;;
    let email := mensaje_informe o u email_destino html_body text_body pdf_bytes in
    try_except
      (send email ;;
       modify (fun s : Marco => (set_enviado true (fst s), snd s)) ;;
       save (Some [c_enviado]))
      (fun exc =>
         o' <- self ;;
         en_mundo (logger ERROR (ErrorEnviando (codigo_lote o') exc)) ;;
         raise exc).

(** ** [views.py]

    The views are modelled for a request that has passed
    [IsAuthenticated].  [Raise] out of a view is an exception that the
    view does not handle. *)

(** What [@api_view] does with [Http404]. *)
Definition api_view (m : M Mundo Response) : M Mundo Response :=
  try_except m (fun exc =>
    match exc with
    | Http404 => ret (mkResponse HTTP_404_NOT_FOUND CuerpoNoEncontrado)
    | _ => raise exc
    end).

(** [registrar_lote]: POST *)
Definition registrar_lote (data : Datos) : M Mundo Response :=
  api_view (
    w <- gets (fun w : Mundo => w) ;;
    match is_valid None false data w with
    | inr vd =>
        o <- create vd ;;
        logger INFO LoteRegistrado ;;
        ret (mkResponse HTTP_201_CREATED (CuerpoLote o))
    | inl errs => ret (mkResponse HTTP_400_BAD_REQUEST (CuerpoErrores errs))
    end).

Inductive Metodo := PUT | PATCH.

(** [request.method == 'PATCH'] *)
Definition es_PATCH (method : Metodo) : bool :=
  match method with
  | PATCH => true
  | PUT => false
  end.

(** [actualizar_lote]: PUT or PATCH *)
Definition actualizar_lote (method : Metodo) (k : Z) (data : Datos) : M Mundo Response :=
  api_view (
    lote <- get_object_or_404 k ;;
    let partial := es_PATCH method in
    w <- gets (fun w : Mundo => w) ;;
    match is_valid (Some lote) partial data w with
    | inr vd =>
        o <- update lote vd ;;
        logger INFO (LoteActualizado k) ;;
        ret (mkResponse HTTP_200_OK (CuerpoLote o))
    | inl errs => ret (mkResponse HTTP_400_BAD_REQUEST (CuerpoErrores errs))
    end).

(** [enviar_informe_pdf]: POST *)
Definition enviar_informe_pdf (k : Z) : M Mundo Response :=
  api_view (
    lote <- get_object_or_404 k ;;
    cliente <- lote_cliente lote ;;
    if negb (str_truthy (cedula cliente)) then
      logger WARNING (ClienteSinCedula k) ;;
      ret (mkResponse HTTP_400_BAD_REQUEST CuerpoSinCedula)
    else
      con_objeto lote
        (try_except
           (pdf <- generar_pdf_lote ;;
            r <- en_mundo (encriptar_con_cedula pdf (cedula cliente)) ;;
            let pdf_encriptado := fst r in
            enviar_informe_por_correo pdf_encriptado ;;
            modify (fun s : Marco => (set_enviado true (fst s), snd s)) ;;
            save (Some [c_enviado]) ;;
            en_mundo (logger INFO (InformeEnviado k (email cliente))) ;;
            ret (mkResponse HTTP_200_OK CuerpoEnviado))
           (fun exc =>
              en_mundo (logger ERROR (ErrorInforme k exc)) ;;
              ret (mkResponse HTTP_500_INTERNAL_SERVER_ERROR (CuerpoErrorInforme exc))))).

(** [urls.py]: the create, update and dispatch routes, with the body of
    the request. *)
Inductive Ruta :=
| lote_create (data : Datos)                            (* lotes/registrar/ *)
| lote_update (method : Metodo) (k : Z) (data : Datos)  (* lotes/<pk>/editar/ *)
| lote_send_informe (k : Z).                            (* lotes/<pk>/enviar-informe/ *)

Definition urlpatterns (r : Ruta) : M Mundo Response :=
  match r with
  | lote_create data => registrar_lote data
  | lote_update method k data => actualizar_lote method k data
  | lote_send_informe k => enviar_informe_pdf k
  end.

(** The body of a create or update request. *)
Definition datos_de (r : Ruta) : option Datos :=
  match r with
  | lote_create data => Some data
  | lote_update _ _ data => Some data
  | lote_send_informe _ => None
  end.

(** The answer of the dispatch endpoint for a client that lacks the
    e-mail address or the identifier: a response [resp], no row changed,
    and new events [evs] among which there is no sent message. *)
Definition despacho_rechazado (k : Z) (w : Mundo) (resp : Response)
    (evs : list Evento) : Prop :=
  exists w',
    enviar_informe_pdf k w = (Ok resp, w')
    /\ lotes w' = lotes w
    /\ bitacora w' = bitacora w ++ evs
    /\ existsb es_correo evs = false.

End Aplicacion.

(** The users are instances of [usuarios.Usuario], which declares no
    [cedula]: no user of the table has one. *)
Definition sin_cedulas (w : Mundo) : Prop :=
  map_Forall (fun _ u => cedula u = None) (usuarios w).

(** ** Vocabulary of the statements *)

(** The two percentages that [save] can derive from each other. *)
Inductive Porcentaje := Bueno | Defectuoso.

Definition porcentaje (q : Porcentaje) (o : LoteProcesado) : option Decimal :=
  match q with
  | Bueno => grano_bueno o
  | Defectuoso => grano_defectuoso o
  end.

Definition contraparte (q : Porcentaje) : Porcentaje :=
  match q with
  | Bueno => Defectuoso
  | Defectuoso => Bueno
  end.

(** The object as [save] leaves it, and the outcome of [save]. *)
Definition objeto_tras_save (uf : option (list Campo)) (o : LoteProcesado) (w : Mundo)
    : LoteProcesado := fst (snd (save uf (o, w))).

Definition mundo_tras_save (uf : option (list Campo)) (o : LoteProcesado) (w : Mundo)
    : Mundo := snd (snd (save uf (o, w))).

(** ** A concrete installation, for running the model *)

Module Ejemplo.

(** Stand-ins for the libraries: ASCII upper-casing, a canvas class
    that is no context manager (entering the [with] block raises), an
    envelope that prefixes the version byte and the IV, templates that
    print the lot code, and a transport that behaves as [transporte]
    says. *)
Definition externos (transporte : option Excepcion) : Externos := {|
  ToUpperFull := ascii_ToUpperFull;
  canvas_pdf := fun _ _ => inl (ErrorExterno 0);
  Fernet_encrypt := fun key iv t data => 0x80 :: iv ++ data;
  render_to_string := fun _ ctx => inr (py "Lote " ++ ctx_codigo_lote ctx);
  DEFAULT_FROM_EMAIL := py "calidad@example.com";
  email_send := fun _ => transporte
|}.

(** Instances of [usuarios.Usuario]: none has a [cedula]. *)
Definition ana : Usuario :=
  mkUsuario (py "ana") (py "Ana Ruiz") (Some (py "ana@example.com")) None.

Definition beto : Usuario :=
  mkUsuario (py "beto") (py "Beto Paz") (Some (py "beto@example.com")) None.

(** a client without address *)
Definition caro : Usuario :=
  mkUsuario (py "caro") (py "Caro Gil") None None.

Definition lote_de (u : Z) (codigo : string) (h i : Decimal)
    (b d : option Decimal) : LoteProcesado :=
  mkLote None u (py codigo) CAFE 19700 150000 (Some h) (Some i) b d [] false 0.

Definition en_tabla (k : Z) (o : LoteProcesado) : LoteProcesado := set_pk (Some k) o.

(** Three stored lots, one per client; scenario A of the
    specification is lot 1 before its first save. *)
Definition mundo : Mundo :=
  mkMundo
    (<[1 := en_tabla 1 (lote_de 1 "L-001" 1000 500 (Some 8000) (Some 500))]>
     (<[2 := en_tabla 2 (lote_de 2 "L-002" 1000 500 (Some 8000) (Some 500))]>
      (<[3 := en_tabla 3 (lote_de 3 "L-003" 1000 500 (Some 8000) (Some 500))]> ∅)))
    (<[1 := ana]> (<[2 := beto]> (<[3 := caro]> ∅)))
    4 1700000000 (repeat 7 16) [].

(** A request body. *)
Definition datos (u : Z) (codigo : string) (h i : Decimal)
    (b d : option (option Decimal)) : Datos :=
  mkDatos (Some u) (Some (py codigo)) (Some CAFE) (Some 19700) (Some 150000)
    (Some h) (Some i) b d None.

End Ejemplo.

(** ** The read-only views *)

(** [detalle_lote]: GET; [Response(serializer.data)] has status 200. *)
Definition detalle_lote (k : Z) : M Mundo Response :=
  api_view (
    lote <- get_object_or_404 k ;;
    ret (mkResponse HTTP_200_OK (CuerpoLote lote))).

(** The rows of the table as objects, each with its key. *)
Definition objetos (w : Mundo) : list LoteProcesado :=
  map (fun kv => set_pk (Some kv.1) kv.2) (map_to_list (lotes w)).

(** [order_by('-fecha_procesamiento')]: later dates first. *)
Definition mas_reciente (x y : LoteProcesado) : Prop :=
  fecha_procesamiento y <= fecha_procesamiento x.

Global Instance mas_reciente_dec (x y : LoteProcesado) : Decision (mas_reciente x y).
Proof. unfold mas_reciente. apply _. Defined.

(** The answer of a list view: status and [serializer.data]. *)
Record ResponseLista := mkResponseLista {
  status_lista : Z;
  data_lista : list LoteProcesado
}.

(** [listar_lotes]: GET.  The query sorts by date only; the order among
    lots of the same date is left to the database, and here it is the one
    a merge sort of the rows gives. *)
Definition listar_lotes : M Mundo ResponseLista :=
  w <- gets (fun w : Mundo => w) ;;
  let lotes := merge_sort mas_reciente (objetos w) in
  ret (mkResponseLista HTTP_200_OK lotes).

(** ** Well-formed tables

    What the declaration of the model and the way rows are written
    promise of every stored row: it carries its own key, keys are below
    the sequence, lot codes are unique, the client exists, humidity and
    impurities are present, and the two derived percentages are both
    present or both absent. *)
Record bien_formado (w : Mundo) : Prop := mk_bien_formado {
  bf_pk : forall k fila, lotes w !! k = Some fila -> pk fila = Some k;
  bf_secuencia : forall k fila, lotes w !! k = Some fila -> k < secuencia w;
  bf_unico : forall k1 k2 f1 f2,
    lotes w !! k1 = Some f1 -> lotes w !! k2 = Some f2 ->
    codigo_lote f1 = codigo_lote f2 -> k1 = k2;
  bf_cliente : forall k fila,
    lotes w !! k = Some fila -> is_Some (usuarios w !! cliente fila);
  bf_no_nulos : forall k fila,
    lotes w !! k = Some fila -> is_Some (humedad fila) /\ is_Some (impurezas fila);
  bf_pares : forall k fila,
    lotes w !! k = Some fila ->
    (grano_bueno fila = None <-> grano_defectuoso fila = None)
}.

(** The events that a run added to the log. *)
Definition eventos_nuevos (w w' : Mundo) : list Evento :=
  drop (length (bitacora w)) (bitacora w').

(** A request body without any field. *)
Definition datos_vacios : Datos :=
  mkDatos None None None None None None None None None None.

(** The four percentages of a row are all present and add up to more
    than 100. *)
Definition suma_excede (fila : LoteProcesado) : bool :=
  match humedad fila, impurezas fila, grano_bueno fila, grano_defectuoso fila with
  | Some h, Some i, Some b, Some d => h + i + b + d >? Decimal_100
  | _, _, _, _ => false
  end.

(* ===================================================================== *)
(** * Part II. Properties *)
(* ===================================================================== *)

(** ** Test vector of the hash and the encoding *)

Example sha256_abc :
  urlsafe_b64encode (SHA256.digest (ascii_bytes "abc"))
  = ascii_bytes "ungWv48Bz-pBQUDeXa4iI7ADYaOWF3qctBD_YfIAFa0=".
Proof. vm_compute. reflexivity. Qed.

(** A message of more than one block. *)
Example sha256_dos_bloques :
  urlsafe_b64encode
    (SHA256.digest (concat (repeat (ascii_bytes "0123456789") 7)))
  = ascii_bytes "V0RfpAsIxgzcunyjnHVt5hTRFILj8VqSX1SGiMGeWPQ=".
Proof. vm_compute. reflexivity. Qed.

Example urlsafe_b64encode_relleno :
  urlsafe_b64encode [0xfb; 0xff; 0xfe] = ascii_bytes "-__-"
  /\ urlsafe_b64encode [0xfb; 0xff] = ascii_bytes "-_8="
  /\ urlsafe_b64encode [0xfb] = ascii_bytes "-w==".
Proof. repeat split. Qed.

(** One, two, three and four byte encodings, and a lone surrogate. *)
Example encode_utf8_ejemplos :
  encode_utf8 [99; 97; 102; 233; 32; 8364; 128512]%N
  = Some [99; 97; 102; 195; 169; 32; 226; 130; 172; 240; 159; 152; 128]
  /\ encode_utf8 [0xD800%N] = None.
Proof. split; reflexivity. Qed.

Example strip_upper_ejemplo :
  upper ascii_ToUpperFull (strip (py "  l-009" ++ [9; 10]%N)) = py "L-009".
Proof. reflexivity. Qed.

(** ** [save]: the derived percentages *)

Lemma py_sum_3 (h i p : Decimal) :
  py_sum (filter_None [Some h; Some i; Some p]) = h + i + p.
Proof.
  unfold py_sum; simpl.
  destruct (Z.eqb_spec h 0), (Z.eqb_spec i 0), (Z.eqb_spec p 0);
    simpl; lia.
Qed.

(** [super().save] touches at most the key and the creation stamp of
    the object. *)
Lemma Model_save_objeto (uf : option (list Campo)) (o : LoteProcesado) (w : Mundo) :
  let o' := fst (snd (Model_save uf (o, w))) in
  humedad o' = humedad o /\ impurezas o' = impurezas o
  /\ grano_bueno o' = grano_bueno o /\ grano_defectuoso o' = grano_defectuoso o
  /\ enviado o' = enviado o /\ codigo_lote o' = codigo_lote o
  /\ cliente o' = cliente o.
Proof.
  unfold Model_save.
  repeat case_match; simpl; auto 10.
Qed.

Lemma save_unfold (uf : option (list Campo)) (o : LoteProcesado) (w : Mundo) :
  save uf (o, w) = Model_save uf (save_calculo o, w).
Proof. reflexivity. Qed.

Lemma save_calculo_humedad (o : LoteProcesado) :
  humedad (save_calculo o) = humedad o /\ impurezas (save_calculo o) = impurezas o.
Proof. unfold save_calculo. repeat case_match; auto. Qed.

Lemma save_calculo_enviado (o : LoteProcesado) :
  enviado (save_calculo o) = enviado o /\ pk (save_calculo o) = pk o.
Proof. unfold save_calculo. repeat case_match; auto. Qed.

Lemma save_calculo_sin_defectuoso (o : LoteProcesado) (p : Decimal) :
  grano_defectuoso o = None ->
  grano_bueno o = Some p ->
  save_calculo o
  = set_grano_defectuoso
      (Some (Z.max Decimal_0
               (Decimal_100 - py_sum (filter_None [humedad o; impurezas o; Some p])))) o.
Proof. intros Hd Hb. unfold save_calculo. rewrite Hd, Hb. reflexivity. Qed.

Lemma save_calculo_sin_bueno (o : LoteProcesado) (p : Decimal) :
  grano_bueno o = None ->
  grano_defectuoso o = Some p ->
  save_calculo o
  = set_grano_bueno
      (Some (Z.max Decimal_0
               (Decimal_100 - py_sum (filter_None [humedad o; impurezas o; Some p])))) o.
Proof. intros Hb Hd. unfold save_calculo. rewrite Hd, Hb. reflexivity. Qed.

(** A plain [save] that returns has stored the object under its key. *)
Lemma save_guarda (o : LoteProcesado) (w : Mundo) :
  fst (save None (o, w)) = Ok tt ->
  exists k, pk (objeto_tras_save None o w) = Some k
            /\ lotes (mundo_tras_save None o w) !! k = Some (objeto_tras_save None o w).
Proof.
  unfold objeto_tras_save, mundo_tras_save. rewrite save_unfold.
  unfold Model_save.
  destruct (pk (save_calculo o)) as [k|] eqn:Hpk.
  - destruct (lotes w !! k) eqn:Hrow; cbv zeta;
      destruct (restricciones _ k _ w); simpl; try discriminate;
      intros _; exists k; (split; [assumption | apply lookup_insert_eq]).
  - case_match; simpl; [|discriminate]. intros _.
    exists (secuencia w). split; [reflexivity | apply lookup_insert_eq].
Qed.

(** C1. For a lot saved with humidity [h] and impurities [i] present and
    exactly one of good% and defective% known, with value [p], [save]
    sets the missing one to [max(0, 100 - h - i - p)] and leaves the known
    one unchanged; a plain save that returns has stored the object so
    completed. *)
Theorem save_deriva_contraparte
    (uf : option (list Campo)) (o : LoteProcesado) (w : Mundo)
    (q : Porcentaje) (h i p : Decimal) :
  humedad o = Some h ->
  impurezas o = Some i ->
  porcentaje q o = Some p ->
  porcentaje (contraparte q) o = None ->
  porcentaje (contraparte q) (objeto_tras_save uf o w)
  = Some (Z.max Decimal_0 (Decimal_100 - h - i - p))
  /\ porcentaje q (objeto_tras_save uf o w) = Some p
  /\ (fst (save None (o, w)) = Ok tt ->
      exists k, lotes (mundo_tras_save None o w) !! k
                = Some (objeto_tras_save None o w)).
Proof.
  intros Hh Hi Hq Hc.
  assert (Hcalc : porcentaje (contraparte q) (save_calculo o)
                  = Some (Z.max Decimal_0 (Decimal_100 - h - i - p))
                  /\ porcentaje q (save_calculo o) = Some p).
  { destruct q; simpl in Hq, Hc.
    - rewrite (save_calculo_sin_defectuoso o p Hc Hq), Hh, Hi, py_sum_3.
      simpl. split; [do 2 f_equal; lia | assumption].
    - rewrite (save_calculo_sin_bueno o p Hc Hq), Hh, Hi, py_sum_3.
      simpl. split; [do 2 f_equal; lia | assumption]. }
  destruct Hcalc as [Hc' Hq'].
  unfold objeto_tras_save at 1 2. rewrite save_unfold.
  destruct (Model_save_objeto uf (save_calculo o) w) as (_ & _ & Hb & Hd & _).
  split; [|split].
  - destruct q; simpl in *; congruence.
  - destruct q; simpl in *; congruence.
  - intros Hok. destruct (save_guarda o w Hok) as (k & _ & Hk). eauto.
Qed.

Lemma save_deriva_contraparte_witness :
  let o := Ejemplo.lote_de 1 "L-010" 1000 500 (Some 8000) None in
  porcentaje Defectuoso (objeto_tras_save None o Ejemplo.mundo) = Some 500
  /\ porcentaje Bueno (objeto_tras_save None o Ejemplo.mundo) = Some 8000
  /\ fst (save None (o, Ejemplo.mundo)) = Ok tt.
Proof.
  intros o.
  destruct (save_deriva_contraparte None o Ejemplo.mundo Bueno 1000 500 8000
              eq_refl eq_refl eq_refl eq_refl) as (Hd & Hb & _).
  split; [exact Hd | split; [exact Hb | reflexivity]].
Defined.

(** C10. [save] never changes humidity or impurities, and when both good%
    and defective% are absent it derives neither: both are still absent
    on the object, and in the stored row when the save returns. *)
Theorem save_no_deriva_sin_porcentajes
    (uf : option (list Campo)) (o : LoteProcesado) (w : Mundo) :
  humedad (objeto_tras_save uf o w) = humedad o
  /\ impurezas (objeto_tras_save uf o w) = impurezas o
  /\ (grano_bueno o = None -> grano_defectuoso o = None ->
      grano_bueno (objeto_tras_save uf o w) = None
      /\ grano_defectuoso (objeto_tras_save uf o w) = None
      /\ (fst (save None (o, w)) = Ok tt ->
          exists k fila, lotes (mundo_tras_save None o w) !! k = Some fila
                         /\ pk fila = Some k
                         /\ grano_bueno fila = None /\ grano_defectuoso fila = None
                         /\ humedad fila = humedad o /\ impurezas fila = impurezas o)).
Proof.
  unfold objeto_tras_save. rewrite save_unfold.
  destruct (Model_save_objeto uf (save_calculo o) w) as (Hh & Hi & Hb & Hd & _).
  destruct (save_calculo_humedad o) as [Hh' Hi'].
  split; [congruence | split; [congruence |]].
  intros Hb0 Hd0.
  assert (Hid : save_calculo o = o).
  { unfold save_calculo. rewrite Hb0, Hd0. reflexivity. }
  rewrite Hid in Hb, Hd.
  split; [congruence | split; [congruence |]].
  intros Hok. destruct (save_guarda o w Hok) as (k & Hk & Hrow).
  exists k, (objeto_tras_save None o w).
  unfold objeto_tras_save in *. rewrite save_unfold in *.
  destruct (Model_save_objeto None (save_calculo o) w) as (Hh2 & Hi2 & Hb2 & Hd2 & _).
  rewrite Hid in *.
  repeat split; congruence.
Qed.

Lemma save_no_deriva_sin_porcentajes_witness :
  let o := Ejemplo.lote_de 1 "L-011" 1000 500 None None in
  grano_bueno (objeto_tras_save None o Ejemplo.mundo) = None
  /\ grano_defectuoso (objeto_tras_save None o Ejemplo.mundo) = None
  /\ fst (save None (o, Ejemplo.mundo)) = Ok tt.
Proof.
  intros o.
  destruct (save_no_deriva_sin_porcentajes None o Ejemplo.mundo) as (_ & _ & H).
  destruct (H eq_refl eq_refl) as (Hb & Hd & _).
  split; [exact Hb | split; [exact Hd | reflexivity]].
Defined.

(** ** The serializer and the create / update views *)

Section Serializador.

Context `{Externos}.

(** [validate] raises exactly on a sum above 100, and returns its input
    otherwise. *)
Lemma validate_suma (instance : option LoteProcesado) (attrs : Datos)
    (h i b d : Decimal) :
  dict_get (Some <$> d_humedad attrs) (getattr instance humedad) = Some h ->
  dict_get (Some <$> d_impurezas attrs) (getattr instance impurezas) = Some i ->
  dict_get (d_grano_bueno attrs) (getattr instance grano_bueno) = Some b ->
  dict_get (d_grano_defectuoso attrs) (getattr instance grano_defectuoso) = Some d ->
  validate instance attrs
  = if h + i + b + d >? Decimal_100 then inl SumaPorcentajes else inr attrs.
Proof.
  intros Hh Hi Hb Hd. unfold validate. rewrite Hh, Hi, Hb, Hd. reflexivity.
Qed.

(** A request that the serializer rejects leaves the world as it was. *)
Lemma actualizar_lote_rechazado (method : Metodo) (k : Z) (data : Datos)
    (w : Mundo) (fila : LoteProcesado) (errs : list ErrorValidacion) :
  lotes w !! k = Some fila ->
  is_valid (Some (set_pk (Some k) fila)) (es_PATCH method) data w = inl errs ->
  actualizar_lote method k data w
  = (Ok (mkResponse HTTP_400_BAD_REQUEST (CuerpoErrores errs)), w).
Proof.
  intros Hrow Hval.
  unfold actualizar_lote, api_view, try_except, bind, get_object_or_404, gets.
  rewrite Hrow. simpl. rewrite Hval. reflexivity.
Qed.

Lemma registrar_lote_rechazado (data : Datos) (w : Mundo)
    (errs : list ErrorValidacion) :
  is_valid None false data w = inl errs ->
  registrar_lote data w
  = (Ok (mkResponse HTTP_400_BAD_REQUEST (CuerpoErrores errs)), w).
Proof.
  intros Hval.
  unfold registrar_lote, api_view, try_except, bind, gets.
  simpl. rewrite Hval. reflexivity.
Qed.

(** C4. When the four percentages are all present after the field-level
    pass (absent entries taken from the instance), validation raises the
    sum error exactly when the sum exceeds 100; the rejected request is
    answered with 400 and the world, stored rows included, is as before. *)
Theorem validacion_rechaza_suma_mayor_100
    (instance : option LoteProcesado) (partial : bool) (data attrs : Datos)
    (w : Mundo) (h i b d : Decimal) :
  to_internal_value instance partial data w = inr attrs ->
  dict_get (Some <$> d_humedad attrs) (getattr instance humedad) = Some h ->
  dict_get (Some <$> d_impurezas attrs) (getattr instance impurezas) = Some i ->
  dict_get (d_grano_bueno attrs) (getattr instance grano_bueno) = Some b ->
  dict_get (d_grano_defectuoso attrs) (getattr instance grano_defectuoso) = Some d ->
  (validate instance attrs = inl SumaPorcentajes <-> h + i + b + d > Decimal_100)
  /\ (h + i + b + d <= Decimal_100 -> is_valid instance partial data w = inr attrs)
  /\ (h + i + b + d > Decimal_100 ->
      is_valid instance partial data w = inl [SumaPorcentajes]
      /\ (forall method k fila,
            lotes w !! k = Some fila ->
            instance = Some (set_pk (Some k) fila) ->
            partial = es_PATCH method ->
            actualizar_lote method k data w
            = (Ok (mkResponse HTTP_400_BAD_REQUEST (CuerpoErrores [SumaPorcentajes])), w))
      /\ (instance = None -> partial = false ->
          registrar_lote data w
          = (Ok (mkResponse HTTP_400_BAD_REQUEST (CuerpoErrores [SumaPorcentajes])), w))).
Proof.
  intros Hfields Hh Hi Hb Hd.
  pose proof (validate_suma instance attrs h i b d Hh Hi Hb Hd) as Hv.
  destruct (Z.gtb_spec (h + i + b + d) Decimal_100) as [Hgt | Hle].
  - assert (Hrej : is_valid instance partial data w = inl [SumaPorcentajes]).
    { unfold is_valid. rewrite Hfields, Hv. reflexivity. }
    split; [| split].
    + rewrite Hv. split; [lia | reflexivity].
    + lia.
    + intros _. split; [exact Hrej | split].
      * intros method k fila Hrow -> ->.
        apply (actualizar_lote_rechazado method k data w fila); assumption.
      * intros -> ->. apply registrar_lote_rechazado; assumption.
  - split; [| split].
    + rewrite Hv. split; [discriminate | lia].
    + intros _. unfold is_valid. rewrite Hfields, Hv. reflexivity.
    + lia.
Qed.

End Serializador.

(** Scenario B: the stored lot 1 receives a full update with humidity 40,
    impurities 40, good 15 and defective 15. *)
Lemma validacion_rechaza_suma_mayor_100_witness :
  let ext := Ejemplo.externos None in
  let data := Ejemplo.datos 1 "L-001" 4000 4000 (Some (Some 1500)) (Some (Some 1500)) in
  actualizar_lote PUT 1 data Ejemplo.mundo
  = (Ok (mkResponse HTTP_400_BAD_REQUEST (CuerpoErrores [SumaPorcentajes])),
     Ejemplo.mundo).
Proof.
  intros ext data.
  pose (fila := Ejemplo.en_tabla 1 (Ejemplo.lote_de 1 "L-001" 1000 500 (Some 8000) (Some 500))).
  destruct (@validacion_rechaza_suma_mayor_100 ext
              (Some (set_pk (Some 1) fila)) false data data Ejemplo.mundo
              4000 4000 1500 1500 eq_refl eq_refl eq_refl eq_refl eq_refl)
    as (_ & _ & Hrej).
  assert (Hgt : 4000 + 4000 + 1500 + 1500 > Decimal_100) by (unfold Decimal_100; lia).
  destruct (Hrej Hgt) as (_ & Hupd & _).
  apply (Hupd PUT 1 fila); reflexivity.
Defined.

(** ** Normalisation of the lot code *)

Lemma lstrip_idem (s : str) : lstrip (lstrip s) = lstrip s.
Proof.
  induction s as [|c r IH]; simpl; [reflexivity|].
  destruct (isspace c) eqn:Hc; [exact IH|].
  simpl. rewrite Hc. reflexivity.
Qed.

(** What [lstrip] returns is empty or starts with a code point that is
    not white space. *)
Lemma lstrip_head (s : str) :
  lstrip s = [] \/ exists c r, lstrip s = c :: r /\ isspace c = false.
Proof.
  induction s as [|c r IH]; simpl; [left; reflexivity|].
  destruct (isspace c) eqn:Hc; [exact IH|].
  right. exists c, r. split; [reflexivity | exact Hc].
Qed.

Lemma lstrip_snoc (l : str) (c : N) :
  isspace c = false -> exists l', lstrip (l ++ [c]) = l' ++ [c].
Proof.
  intros Hc. induction l as [|x l IH]; simpl.
  - rewrite Hc. exists []. reflexivity.
  - destruct (isspace x).
    + exact IH.
    + exists (x :: l). reflexivity.
Qed.

Lemma rstrip_cons (c : N) (r : str) :
  isspace c = false -> exists r', rstrip (c :: r) = c :: r'.
Proof.
  intros Hc. unfold rstrip. simpl.
  destruct (lstrip_snoc (rev r) c Hc) as [l' Hl'].
  rewrite Hl'. rewrite rev_app_distr. simpl. exists (rev l'). reflexivity.
Qed.

Lemma rstrip_idem (s : str) : rstrip (rstrip s) = rstrip s.
Proof.
  unfold rstrip. rewrite rev_involutive, lstrip_idem. reflexivity.
Qed.

(** [s.strip().strip() == s.strip()] *)
Lemma strip_idem (s : str) : strip (strip s) = strip s.
Proof.
  unfold strip.
  destruct (lstrip_head s) as [Hnil | (c & r & Hcr & Hc)].
  - rewrite Hnil. reflexivity.
  - rewrite Hcr.
    destruct (rstrip_cons c r Hc) as [r' Hr'].
    assert (Hl : lstrip (rstrip (c :: r)) = rstrip (c :: r)).
    { rewrite Hr'. simpl. rewrite Hc. reflexivity. }
    rewrite Hl. apply rstrip_idem.
Qed.

Section Codigo.

Context `{Externos}.

Lemma validate_inr (instance : option LoteProcesado) (attrs attrs' : Datos) :
  validate instance attrs = inr attrs' -> attrs' = attrs.
Proof.
  unfold validate. repeat case_match; congruence.
Qed.

(** The lot code in [validated_data] is the trimmed, upper-cased input,
    and the other entries that reach the model are those of the request. *)
Lemma is_valid_codigo_lote (instance : option LoteProcesado) (partial : bool)
    (data vd : Datos) (w : Mundo) :
  is_valid instance partial data w = inr vd ->
  d_codigo_lote vd = (fun s => upper ToUpperFull (strip s)) <$> d_codigo_lote data.
Proof.
  unfold is_valid.
  destruct (to_internal_value instance partial data w) as [errs|attrs] eqn:Hfields;
    [discriminate|].
  destruct (validate instance attrs) as [err|attrs'] eqn:Hv; [discriminate|].
  intros [= <-]. apply validate_inr in Hv. subst attrs'.
  unfold to_internal_value in Hfields.
  case_match; [|discriminate].
  injection Hfields as <-. simpl.
  destruct (d_codigo_lote data) as [s|]; simpl; [|reflexivity].
  unfold validate_codigo_lote. rewrite strip_idem. reflexivity.
Qed.

(** A [serializer.save()] that returns has run [save] on the object it
    built, and hands that object back. *)
Lemma guardar_objeto (o : LoteProcesado) (w w' : Mundo) (o' : LoteProcesado) :
  con_objeto o (save None ;; self) w = (Ok o', w') ->
  fst (save None (o, w)) = Ok tt
  /\ o' = objeto_tras_save None o w /\ w' = mundo_tras_save None o w.
Proof.
  unfold con_objeto, bind, self, gets, objeto_tras_save, mundo_tras_save.
  destruct (save None (o, w)) as [[[]|e] [o1 w1]]; simpl; [|discriminate].
  intros [= <- <-]. auto.
Qed.

Lemma save_codigo_lote (uf : option (list Campo)) (o : LoteProcesado) (w : Mundo) :
  codigo_lote (objeto_tras_save uf o w) = codigo_lote o.
Proof.
  unfold objeto_tras_save. rewrite save_unfold.
  destruct (Model_save_objeto uf (save_calculo o) w) as (_ & _ & _ & _ & _ & Hc & _).
  rewrite Hc. unfold save_calculo. repeat case_match; reflexivity.
Qed.

(** [save] keeps the key of an object that has one. *)
Lemma save_pk (uf : option (list Campo)) (o : LoteProcesado) (w : Mundo) (k : Z) :
  pk o = Some k -> pk (objeto_tras_save uf o w) = Some k.
Proof.
  intros Hpk. unfold objeto_tras_save. rewrite save_unfold.
  assert (Hk : pk (save_calculo o) = Some k).
  { rewrite <- Hpk. apply save_calculo_enviado. }
  unfold Model_save. rewrite Hk.
  repeat case_match; simpl; assumption.
Qed.

(** C9. When a create or update request that carries the lot code [s] is
    accepted (answered 201 or 200), the row that it stores, which is also
    the one it returns, has the code [s.strip().upper()]. *)
Theorem codigo_lote_almacenado_normalizado
    (r : Ruta) (data : Datos) (s : str) (w w' : Mundo) (resp : Response) :
  datos_de r = Some data ->
  d_codigo_lote data = Some s ->
  urlpatterns r w = (Ok resp, w') ->
  status resp = HTTP_201_CREATED \/ status resp = HTTP_200_OK ->
  exists k o,
    cuerpo resp = CuerpoLote o
    /\ pk o = Some k
    /\ lotes w' !! k = Some o
    /\ codigo_lote o = upper ToUpperFull (strip s)
    /\ (forall method k0 data0, r = lote_update method k0 data0 -> k = k0).
Proof.
  intros Hdatos Hs Hrun Hacc.
  destruct r as [data0 | method k0 data0 | k0]; simpl in Hdatos;
    [injection Hdatos as -> | injection Hdatos as -> | discriminate].
  - (* create *)
    simpl in Hrun. unfold registrar_lote, api_view, try_except, bind, gets in Hrun.
    simpl in Hrun.
    destruct (is_valid None false data w) as [errs|vd] eqn:Hval.
    + injection Hrun as <- <-. simpl in Hacc. unfold HTTP_400_BAD_REQUEST,
        HTTP_201_CREATED, HTTP_200_OK in Hacc. lia.
    + pose proof (is_valid_codigo_lote _ _ _ _ _ Hval) as Hcod.
      rewrite Hs in Hcod. simpl in Hcod.
      unfold create in Hrun.
      destruct (nuevo_lote vd) as [o|] eqn:Hnew.
      * destruct (con_objeto o (save None;; self) w) as [[o'|e] w1] eqn:Hsave.
        -- apply guardar_objeto in Hsave as (Hok & -> & ->).
           simpl in Hrun. injection Hrun as <- <-.
           destruct (save_guarda o w Hok) as (k & Hpk & Hk).
           exists k, (objeto_tras_save None o w).
           split; [reflexivity|]. split; [exact Hpk|]. split; [exact Hk|].
           split; [|discriminate].
           rewrite save_codigo_lote.
           unfold nuevo_lote in Hnew. repeat case_match; try discriminate.
           injection Hnew as <-. simpl. rewrite Hcod. reflexivity.
        -- destruct e; simpl in Hrun; try discriminate.
           injection Hrun as <- <-. simpl in Hacc.
           unfold HTTP_404_NOT_FOUND, HTTP_201_CREATED, HTTP_200_OK in Hacc. lia.
      * unfold raise in Hrun. simpl in Hrun. discriminate.
  - (* update *)
    simpl in Hrun.
    unfold actualizar_lote, api_view, try_except, bind, get_object_or_404, gets in Hrun.
    destruct (lotes w !! k0) as [fila|] eqn:Hrow; simpl in Hrun.
    + destruct (is_valid (Some (set_pk (Some k0) fila)) (es_PATCH method) data w)
        as [errs|vd] eqn:Hval.
      * injection Hrun as <- <-. simpl in Hacc. unfold HTTP_400_BAD_REQUEST,
          HTTP_201_CREATED, HTTP_200_OK in Hacc. lia.
      * pose proof (is_valid_codigo_lote _ _ _ _ _ Hval) as Hcod.
        rewrite Hs in Hcod. simpl in Hcod.
        unfold update in Hrun.
        destruct (con_objeto (asignar vd (set_pk (Some k0) fila)) (save None;; self) w)
          as [[o'|e] w1] eqn:Hsave.
        -- apply guardar_objeto in Hsave as (Hok & -> & ->).
           simpl in Hrun. injection Hrun as <- <-.
           destruct (save_guarda _ w Hok) as (k & Hpk & Hk).
           exists k, (objeto_tras_save None (asignar vd (set_pk (Some k0) fila)) w).
           split; [reflexivity|]. split; [exact Hpk|]. split; [exact Hk|].
           split.
           ++ rewrite save_codigo_lote. simpl. rewrite Hcod. reflexivity.
           ++ intros method' k1 data1 [= _ <- _].
              rewrite (save_pk None _ w k0) in Hpk by reflexivity.
              congruence.
        -- destruct e; simpl in Hrun; try discriminate.
           injection Hrun as <- <-. simpl in Hacc.
           unfold HTTP_404_NOT_FOUND, HTTP_201_CREATED, HTTP_200_OK in Hacc. lia.
    + injection Hrun as <- <-. simpl in Hacc.
      unfold HTTP_404_NOT_FOUND, HTTP_201_CREATED, HTTP_200_OK in Hacc. lia.
Qed.

End Codigo.

Lemma codigo_lote_almacenado_normalizado_witness :
  let ext := Ejemplo.externos None in
  let data := Ejemplo.datos 1 "  l-009 " 1000 500 (Some (Some 8000)) None in
  exists k o,
    lotes (snd (@registrar_lote ext data Ejemplo.mundo)) !! k = Some o
    /\ codigo_lote o = py "L-009".
Proof.
  intros ext data.
  destruct (@registrar_lote ext data Ejemplo.mundo) as [r w'] eqn:Hrun.
  assert (Hr : exists resp, r = Ok resp /\ status resp = HTTP_201_CREATED).
  { vm_compute in Hrun. injection Hrun as <- _. eexists. split; reflexivity. }
  destruct Hr as (resp & -> & Hst).
  destruct (@codigo_lote_almacenado_normalizado ext (lote_create data) data
              (py "  l-009 ") Ejemplo.mundo w' resp eq_refl eq_refl Hrun (or_introl Hst))
    as (k & o & _ & _ & Hk & Hcod & _).
  exists k, o. split; [exact Hk | exact Hcod].
Defined.

(** ** Key derivation *)

Lemma utf8_char_escalar (c : N) : escalar c = true -> is_Some (utf8_char c).
Proof.
  unfold escalar, utf8_char. intros Hc.
  assert (Hz : Z.of_N c < 0xD800 \/ 0xDFFF < Z.of_N c < 0x110000).
  { apply orb_prop in Hc as [Hc | [Hc1 Hc2]%andb_prop].
    - apply N.ltb_lt in Hc. lia.
    - apply N.ltb_lt in Hc1, Hc2. lia. }
  destruct (Z.ltb_spec (Z.of_N c) 0x80); [eexists; reflexivity|].
  destruct (Z.ltb_spec (Z.of_N c) 0x800); [eexists; reflexivity|].
  destruct (Z.ltb_spec (Z.of_N c) 0x10000).
  - destruct (Z.leb_spec 0xD800 (Z.of_N c)), (Z.leb_spec (Z.of_N c) 0xDFFF);
      simpl; try (eexists; reflexivity). exfalso; lia.
  - destruct (Z.ltb_spec (Z.of_N c) 0x110000); [eexists; reflexivity|].
    exfalso; lia.
Qed.

(** Every string of Unicode scalar values has a UTF-8 encoding. *)
Lemma encode_utf8_total (s : str) :
  forallb escalar s = true -> is_Some (encode_utf8 s).
Proof.
  induction s as [|c r IH]; simpl; [eexists; reflexivity|].
  intros [Hc Hr]%andb_prop.
  destruct (utf8_char_escalar c Hc) as [b ->].
  destruct (IH Hr) as [br ->]. eexists; reflexivity.
Qed.

Lemma digest_length (m : bytes) : length (SHA256.digest m) = 32%nat.
Proof. unfold SHA256.digest. rewrite !length_app. reflexivity. Qed.

Lemma urlsafe_b64encode_length_le (n : nat) (bs : bytes) :
  (length bs <= n)%nat ->
  length (urlsafe_b64encode bs) = (4 * ((length bs + 2) / 3))%nat.
Proof.
  revert bs. induction n as [n IH] using lt_wf_ind. intros bs Hn.
  destruct bs as [|x [|y [|z r]]]; try reflexivity.
  change (urlsafe_b64encode (x :: y :: z :: r))
    with (b64_char (Z.shiftr x 2)
          :: b64_char (Z.lor (Z.shiftl (Z.land x 3) 4) (Z.shiftr y 4))
          :: b64_char (Z.lor (Z.shiftl (Z.land y 15) 2) (Z.shiftr z 6))
          :: b64_char (Z.land z 63) :: urlsafe_b64encode r).
  simpl length in *.
  rewrite (IH (length r)); [|lia|lia].
  replace (S (S (S (length r))) + 2)%nat with ((length r + 2) + 1 * 3)%nat by lia.
  rewrite Nat.div_add by lia. lia.
Qed.

Lemma urlsafe_b64encode_length (bs : bytes) :
  length (urlsafe_b64encode bs) = (4 * ((length bs + 2) / 3))%nat.
Proof. apply (urlsafe_b64encode_length_le (length bs)). lia. Qed.

Section Clave.

Context `{Externos}.

(** C5. For a non-empty identifier (a string of Unicode scalar values),
    [encriptar_con_cedula] returns as key the URL-safe base64 text of the
    SHA-256 digest of the identifier's UTF-8 bytes: 44 bytes that depend
    on nothing else, so two derivations, on any documents and in any
    state of the world, return the same key. *)
Theorem clave_es_sha256_base64 (cedula : str) (pdf1 pdf2 : bytes) (w1 w2 : Mundo) :
  cedula <> [] ->
  forallb escalar cedula = true ->
  exists encoded key token1 token2,
    encode_utf8 cedula = Some encoded
    /\ key = urlsafe_b64encode (SHA256.digest encoded)
    /\ encriptar_con_cedula pdf1 (Some cedula) w1 = (Ok (token1, key), w1)
    /\ encriptar_con_cedula pdf2 (Some cedula) w2 = (Ok (token2, key), w2)
    /\ length key = 44%nat.
Proof.
  intros Hne Hsc.
  destruct (encode_utf8_total cedula Hsc) as [encoded Henc].
  exists encoded, (urlsafe_b64encode (SHA256.digest encoded)).
  exists (Fernet_encrypt (urlsafe_b64encode (SHA256.digest encoded))
            (azar w1) (reloj w1) pdf1).
  exists (Fernet_encrypt (urlsafe_b64encode (SHA256.digest encoded))
            (azar w2) (reloj w2) pdf2).
  assert (Ht : str_truthy (Some cedula) = true).
  { destruct cedula; [congruence | reflexivity]. }
  split; [exact Henc|]. split; [reflexivity|].
  split; [|split].
  - unfold encriptar_con_cedula. rewrite Ht. simpl. rewrite Henc. reflexivity.
  - unfold encriptar_con_cedula. rewrite Ht. simpl. rewrite Henc. reflexivity.
  - rewrite urlsafe_b64encode_length, digest_length. reflexivity.
Qed.

End Clave.

(** The identifier of scenario D. *)
Lemma clave_es_sha256_base64_witness :
  exists token,
    @encriptar_con_cedula (Ejemplo.externos None) (ascii_bytes "%PDF")
      (Some (py "CED123")) Ejemplo.mundo
    = (Ok (token, ascii_bytes "7xrudcJPMzpaCq5ivY-Xzd9tQ_qJ782iDxGuHk1c9bw="),
       Ejemplo.mundo).
Proof.
  destruct (@clave_es_sha256_base64 (Ejemplo.externos None) (py "CED123")
              (ascii_bytes "%PDF") [] Ejemplo.mundo Ejemplo.mundo)
    as (encoded & key & token1 & token2 & Henc & Hkey & H1 & _).
  - discriminate.
  - reflexivity.
  - exists token1. rewrite H1.
    vm_compute in Henc. injection Henc as <-.
    rewrite Hkey. vm_compute. reflexivity.
Defined.

(** ** Delivery *)

Lemma str_truthy_Some (s : str) : s <> [] -> str_truthy (Some s) = true.
Proof. destruct s; [congruence | reflexivity]. Qed.

Lemma copiar_enviado (o fila : LoteProcesado) :
  copiar_campo c_enviado o fila = set_enviado (enviado o) fila.
Proof. reflexivity. Qed.

(** [save(update_fields=['enviado'])] on an object whose row exists
    writes the flag of the object into that row and nothing else. *)
Lemma save_solo_enviado (o : LoteProcesado) (w : Mundo) (k : Z) (fila : LoteProcesado) :
  pk o = Some k ->
  lotes w !! k = Some fila ->
  save (Some [c_enviado]) (o, w)
  = (Ok tt, (save_calculo o,
             set_lotes (<[k := set_enviado (enviado o) fila]> (lotes w)) w)).
Proof.
  intros Hpk Hrow. rewrite save_unfold. unfold Model_save.
  destruct (save_calculo_enviado o) as [He Hk]. rewrite Hk, Hpk, Hrow.
  simpl. rewrite copiar_enviado, He. reflexivity.
Qed.

Section Entrega.

Context `{Externos}.

Local Arguments urlsafe_b64encode : simpl never.
Local Arguments SHA256.digest : simpl never.

(** C7. When the transport raises [exc] on the message of the report, the
    delivery step logs the error with the lot code and raises [exc] again;
    the object and the tables, the delivered flag among them, are as
    before. *)
Theorem fallo_de_transporte_no_marca_enviado
    (pdf_bytes : bytes) (o : LoteProcesado) (w : Mundo) (u : Usuario)
    (destino html_body text_body : str) (exc : Excepcion) :
  usuarios w !! cliente o = Some u ->
  email u = Some destino ->
  destino <> [] ->
  render_to_string email_html
    (mkContexto (get_full_name u) (codigo_lote o) (fecha_procesamiento o))
  = inr html_body ->
  render_to_string email_txt
    (mkContexto (get_full_name u) (codigo_lote o) (fecha_procesamiento o))
  = inr text_body ->
  email_send (mensaje_informe o u destino html_body text_body pdf_bytes) = Some exc ->
  enviar_informe_por_correo pdf_bytes (o, w)
  = (Raise exc, (o, anotar (Log ERROR (ErrorEnviando (codigo_lote o) exc)) w))
  /\ enviado (fst (snd (enviar_informe_por_correo pdf_bytes (o, w)))) = enviado o
  /\ lotes (snd (snd (enviar_informe_por_correo pdf_bytes (o, w)))) = lotes w.
Proof.
  intros Hu Hemail Hne Hhtml Htxt Hsend.
  assert (Hrun : enviar_informe_por_correo pdf_bytes (o, w)
                 = (Raise exc, (o, anotar (Log ERROR (ErrorEnviando (codigo_lote o) exc)) w))).
  { unfold enviar_informe_por_correo, bind, self, gets, en_mundo, lote_cliente.
    simpl. rewrite Hu. simpl. rewrite Hemail, (str_truthy_Some destino Hne). simpl.
    unfold render. rewrite Hhtml, Htxt. simpl.
    unfold try_except, bind, send. rewrite Hsend. reflexivity. }
  rewrite Hrun. auto.
Qed.

(** The run of the delivery step when the transport takes the message. *)
Lemma entrega_corre
    (pdf_bytes : bytes) (o : LoteProcesado) (w : Mundo) (u : Usuario)
    (destino html_body text_body : str) (k : Z) (fila : LoteProcesado) :
  usuarios w !! cliente o = Some u ->
  email u = Some destino ->
  destino <> [] ->
  render_to_string email_html
    (mkContexto (get_full_name u) (codigo_lote o) (fecha_procesamiento o))
  = inr html_body ->
  render_to_string email_txt
    (mkContexto (get_full_name u) (codigo_lote o) (fecha_procesamiento o))
  = inr text_body ->
  email_send (mensaje_informe o u destino html_body text_body pdf_bytes) = None ->
  pk o = Some k ->
  lotes w !! k = Some fila ->
  enviar_informe_por_correo pdf_bytes (o, w)
  = (Ok tt,
     (save_calculo (set_enviado true o),
      set_lotes (<[k := set_enviado true fila]> (lotes w))
        (anotar (CorreoEnviado (mensaje_informe o u destino html_body text_body pdf_bytes)) w))).
Proof.
  intros Hu Hemail Hne Hhtml Htxt Hsend Hpk Hrow.
  set (m := mensaje_informe o u destino html_body text_body pdf_bytes) in *.
  unfold enviar_informe_por_correo, bind, self, gets, en_mundo, lote_cliente.
  simpl. rewrite Hu. simpl. rewrite Hemail, (str_truthy_Some destino Hne). simpl.
  unfold render. rewrite Hhtml, Htxt. simpl.
  unfold try_except, bind, send. fold m. rewrite Hsend.
  unfold en_mundo, modify. simpl.
  rewrite (save_solo_enviado (set_enviado true o) (anotar (CorreoEnviado m) w) k fila);
    [reflexivity | exact Hpk | exact Hrow].
Qed.

(** C8. When the transport takes the message, the delivery step returns,
    the object is flagged as delivered, and the table differs from the
    one before only in the delivered flag of the row of the lot. *)
Theorem entrega_persiste_solo_enviado
    (pdf_bytes : bytes) (o : LoteProcesado) (w : Mundo) (u : Usuario)
    (destino html_body text_body : str) (k : Z) (fila : LoteProcesado) :
  usuarios w !! cliente o = Some u ->
  email u = Some destino ->
  destino <> [] ->
  render_to_string email_html
    (mkContexto (get_full_name u) (codigo_lote o) (fecha_procesamiento o))
  = inr html_body ->
  render_to_string email_txt
    (mkContexto (get_full_name u) (codigo_lote o) (fecha_procesamiento o))
  = inr text_body ->
  email_send (mensaje_informe o u destino html_body text_body pdf_bytes) = None ->
  pk o = Some k ->
  lotes w !! k = Some fila ->
  fst (enviar_informe_por_correo pdf_bytes (o, w)) = Ok tt
  /\ enviado (fst (snd (enviar_informe_por_correo pdf_bytes (o, w)))) = true
  /\ lotes (snd (snd (enviar_informe_por_correo pdf_bytes (o, w))))
     = <[k := set_enviado true fila]> (lotes w)
  /\ usuarios (snd (snd (enviar_informe_por_correo pdf_bytes (o, w)))) = usuarios w
  /\ bitacora (snd (snd (enviar_informe_por_correo pdf_bytes (o, w))))
     = bitacora w
       ++ [CorreoEnviado (mensaje_informe o u destino html_body text_body pdf_bytes)].
Proof.
  intros Hu Hemail Hne Hhtml Htxt Hsend Hpk Hrow.
  rewrite (entrega_corre pdf_bytes o w u destino html_body text_body k fila)
    by assumption.
  simpl.
  destruct (save_calculo_enviado (set_enviado true o)) as [He _].
  rewrite He. auto.
Qed.

End Entrega.

Lemma fallo_de_transporte_no_marca_enviado_witness :
  let ext := Ejemplo.externos (Some (ErrorExterno 1)) in
  let o := Ejemplo.en_tabla 1 (Ejemplo.lote_de 1 "L-001" 1000 500 (Some 8000) (Some 500)) in
  @enviar_informe_por_correo ext (ascii_bytes "token") (o, Ejemplo.mundo)
  = (Raise (ErrorExterno 1),
     (o, anotar (Log ERROR (ErrorEnviando (py "L-001") (ErrorExterno 1))) Ejemplo.mundo)).
Proof.
  intros ext o.
  refine (proj1 (@fallo_de_transporte_no_marca_enviado ext (ascii_bytes "token") o
                   Ejemplo.mundo Ejemplo.ana (py "ana@example.com")
                   (py "Lote L-001") (py "Lote L-001") (ErrorExterno 1)
                   eq_refl eq_refl _ eq_refl eq_refl eq_refl)).
  discriminate.
Defined.

Lemma entrega_persiste_solo_enviado_witness :
  let ext := Ejemplo.externos None in
  let o := Ejemplo.en_tabla 1 (Ejemplo.lote_de 1 "L-001" 1000 500 (Some 8000) (Some 500)) in
  lotes (snd (snd (@enviar_informe_por_correo ext (ascii_bytes "token") (o, Ejemplo.mundo))))
  = <[1 := set_enviado true o]> (lotes Ejemplo.mundo).
Proof.
  intros ext o.
  refine (proj1 (proj2 (proj2 (@entrega_persiste_solo_enviado ext (ascii_bytes "token") o
                   Ejemplo.mundo Ejemplo.ana (py "ana@example.com")
                   (py "Lote L-001") (py "Lote L-001") 1 o
                   eq_refl eq_refl _ eq_refl eq_refl eq_refl eq_refl eq_refl)))).
  discriminate.
Defined.

(** ** The dispatch endpoint *)

Section Despacho.

Context `{Externos}.

(** For a client without identifier the endpoint stops at its guard,
    whatever the user model: 400, one warning in the log, nothing else. *)
Lemma despacho_sin_cedula (k : Z) (w : Mundo) (fila : LoteProcesado) (u : Usuario) :
  lotes w !! k = Some fila ->
  usuarios w !! cliente fila = Some u ->
  str_truthy (cedula u) = false ->
  enviar_informe_pdf k w
  = (Ok (mkResponse HTTP_400_BAD_REQUEST CuerpoSinCedula),
     anotar (Log WARNING (ClienteSinCedula k)) w).
Proof.
  intros Hrow Hu Hced.
  unfold enviar_informe_pdf, api_view, try_except, bind, get_object_or_404, lote_cliente.
  rewrite Hrow. simpl. rewrite Hu. simpl. rewrite Hced. reflexivity.
Qed.

(** C3. With the user model of the repository, which has no identifier,
    the dispatch endpoint invoked for a lot whose client lacks the e-mail
    address or the identifier answers with a client error (400), renders
    no document, sends no message and changes no row: the delivered flag
    is as before. *)
Theorem despacho_sin_correo_o_cedula_responde_400
    (k : Z) (w : Mundo) (fila : LoteProcesado) (u : Usuario) :
  sin_cedulas w ->
  lotes w !! k = Some fila ->
  usuarios w !! cliente fila = Some u ->
  sin_correo_o_cedula u = true ->
  exists resp evs,
    despacho_rechazado k w resp evs
    /\ client_error resp
    /\ status resp = HTTP_400_BAD_REQUEST
    /\ existsb es_pdf evs = false.
Proof.
  intros Hmodelo Hrow Hu _.
  assert (Hced : str_truthy (cedula u) = false).
  { rewrite (Hmodelo (cliente fila) u Hu). reflexivity. }
  exists (mkResponse HTTP_400_BAD_REQUEST CuerpoSinCedula),
         [Log WARNING (ClienteSinCedula k)].
  split.
  - exists (anotar (Log WARNING (ClienteSinCedula k)) w).
    split; [exact (despacho_sin_cedula k w fila u Hrow Hu Hced)|].
    repeat split.
  - split; [|split; reflexivity].
    unfold client_error, HTTP_400_BAD_REQUEST. simpl. lia.
Qed.

End Despacho.

Lemma Ejemplo_sin_cedulas : sin_cedulas Ejemplo.mundo.
Proof.
  unfold sin_cedulas.
  apply (bool_decide_unpack
           (map_Forall (fun (_ : Z) (u : Usuario) => cedula u = None)
              (usuarios Ejemplo.mundo))).
  vm_compute. exact I.
Qed.

(** Lot 3 belongs to a client without e-mail address. *)
Lemma despacho_sin_correo_o_cedula_responde_400_witness :
  exists resp evs,
    @despacho_rechazado (Ejemplo.externos None) 3 Ejemplo.mundo resp evs
    /\ client_error resp
    /\ existsb es_pdf evs = false.
Proof.
  destruct (@despacho_sin_correo_o_cedula_responde_400 (Ejemplo.externos None)
              3 Ejemplo.mundo
              (Ejemplo.en_tabla 3 (Ejemplo.lote_de 3 "L-003" 1000 500 (Some 8000) (Some 500)))
              Ejemplo.caro Ejemplo_sin_cedulas eq_refl eq_refl eq_refl)
    as (resp & evs & Hrun & Hcli & _ & Hpdf).
  exists resp, evs. split; [exact Hrun | split; [exact Hcli | exact Hpdf]].
Defined.

(** ** The sum of the stored percentages *)

Section Suma.

Context `{Externos}.

(** What the validator does guarantee: a create request that is accepted
    with the four percentages in [validated_data] stores them as they
    are, and their sum is at most 100. *)
Lemma suma_validada_no_supera_100
    (data vd : Datos) (w w' : Mundo) (resp : Response) (h i b d : Decimal) :
  is_valid None false data w = inr vd ->
  d_humedad vd = Some h ->
  d_impurezas vd = Some i ->
  d_grano_bueno vd = Some (Some b) ->
  d_grano_defectuoso vd = Some (Some d) ->
  registrar_lote data w = (Ok resp, w') ->
  exists k fila,
    lotes w' !! k = Some fila
    /\ humedad fila = Some h /\ impurezas fila = Some i
    /\ grano_bueno fila = Some b /\ grano_defectuoso fila = Some d
    /\ h + i + b + d <= Decimal_100.
Proof.
  intros Hval Hh Hi Hb Hd Hrun.
  assert (Hsum : h + i + b + d <= Decimal_100).
  { unfold is_valid in Hval.
    destruct (to_internal_value None false data w) as [errs|attrs]; [discriminate|].
    destruct (validate None attrs) as [err|attrs'] eqn:Hv; [discriminate|].
    injection Hval as ->. pose proof (validate_inr _ _ _ Hv) as <-.
    rewrite (validate_suma None vd h i b d) in Hv;
      [| rewrite Hh; reflexivity | rewrite Hi; reflexivity
       | rewrite Hb; reflexivity | rewrite Hd; reflexivity ].
    destruct (Z.gtb_spec (h + i + b + d) Decimal_100); [discriminate | assumption]. }
  unfold registrar_lote, api_view, try_except, bind, gets in Hrun. simpl in Hrun.
  rewrite Hval in Hrun. unfold create in Hrun.
  destruct (nuevo_lote vd) as [o|] eqn:Hnew; [|discriminate].
  destruct (con_objeto o (save None;; self) w) as [[o'|e] w1] eqn:Hsave.
  - apply guardar_objeto in Hsave as (Hok & -> & ->).
    simpl in Hrun. injection Hrun as <- <-.
    destruct (save_guarda o w Hok) as (k & _ & Hk).
    exists k, (objeto_tras_save None o w). split; [exact Hk|].
    assert (Ho : humedad o = Some h /\ impurezas o = Some i
                 /\ grano_bueno o = Some b /\ grano_defectuoso o = Some d).
    { unfold nuevo_lote in Hnew. repeat case_match; try discriminate.
      injection Hnew as <-. simpl. rewrite Hh, Hi, Hb, Hd. auto. }
    destruct Ho as (Hoh & Hoi & Hob & Hod).
    assert (Hid : save_calculo o = o).
    { unfold save_calculo. rewrite Hob, Hod. reflexivity. }
    unfold objeto_tras_save. rewrite save_unfold, Hid.
    destruct (Model_save_objeto None o w) as (H1 & H2 & H3 & H4 & _).
    repeat split; congruence.
  - destruct e; simpl in Hrun; try discriminate.
    injection Hrun as <- <-.
    unfold con_objeto, bind in Hsave.
    destruct (save None (o, w)) as [[[]|e] [o1 w1']] eqn:Hs; simpl in Hsave;
      [discriminate|].
    injection Hsave as -> _.
    rewrite save_unfold in Hs. unfold Model_save in Hs.
    repeat case_match; simpl in Hs; discriminate.
Qed.

End Suma.

(** C2, run on the code.  A create request with humidity 80, impurities
    80 and good grain 10, each within its range, and no defective
    percentage is accepted; [save] completes the row with defective 0, so
    the stored row has all four percentages and they add up to 170. *)
Lemma suma_almacenada_supera_100 :
  let data := Ejemplo.datos 1 "L-009" 8000 8000 (Some (Some 1000)) None in
  exists resp w' fila,
    @registrar_lote (Ejemplo.externos None) data Ejemplo.mundo = (Ok resp, w')
    /\ status resp = HTTP_201_CREATED
    /\ lotes w' !! 4 = Some fila
    /\ humedad fila = Some 8000 /\ impurezas fila = Some 8000
    /\ grano_bueno fila = Some 1000 /\ grano_defectuoso fila = Some 0
    /\ 8000 + 8000 + 1000 + 0 > Decimal_100.
Proof.
  intros data. eexists _, _, _.
  split; [vm_compute; reflexivity|].
  split; [reflexivity|].
  split; [vm_compute; reflexivity|].
  repeat split.
Qed.

(* ===================================================================== *)
(** * Part III. Further properties of the code *)
(* ===================================================================== *)

(** ** The derived percentage *)

(** X1. With humidity, impurities and the known percentage not negative,
    the percentage that [save] derives lies between 0 and 100; when the
    three known values add up to at most 100 the four add up to exactly
    100, and otherwise the derived one is 0. *)
Theorem porcentaje_derivado_en_rango
    (o : LoteProcesado) (q : Porcentaje) (h i p : Decimal) :
  humedad o = Some h ->
  impurezas o = Some i ->
  porcentaje q o = Some p ->
  porcentaje (contraparte q) o = None ->
  0 <= h -> 0 <= i -> 0 <= p ->
  exists d,
    porcentaje (contraparte q) (save_calculo o) = Some d
    /\ Decimal_0 <= d <= Decimal_100
    /\ (h + i + p <= Decimal_100 -> h + i + p + d = Decimal_100)
    /\ (Decimal_100 < h + i + p -> d = Decimal_0).
Proof.
  intros Hh Hi Hq Hc Hh0 Hi0 Hp0.
  exists (Z.max Decimal_0 (Decimal_100 - (h + i + p))).
  split.
  - destruct q; simpl in Hq, Hc; simpl.
    + rewrite (save_calculo_sin_defectuoso o p Hc Hq), Hh, Hi, py_sum_3. reflexivity.
    + rewrite (save_calculo_sin_bueno o p Hc Hq), Hh, Hi, py_sum_3. reflexivity.
  - unfold Decimal_0, Decimal_100. lia.
Qed.

Lemma porcentaje_derivado_en_rango_witness :
  exists d,
    porcentaje Bueno
      (save_calculo (Ejemplo.lote_de 1 "L-020" 1200 300 None (Some 700))) = Some d
    /\ Decimal_0 <= d <= Decimal_100
    /\ 1200 + 300 + 700 + d = Decimal_100.
Proof.
  destruct (porcentaje_derivado_en_rango
              (Ejemplo.lote_de 1 "L-020" 1200 300 None (Some 700)) Defectuoso
              1200 300 700 eq_refl eq_refl eq_refl eq_refl)
    as (d & Hd & Hr & Hs & _); try lia.
  exists d. split; [exact Hd | split; [exact Hr |]].
  apply Hs. unfold Decimal_100. lia.
Defined.

(** X2. After [save] has run its calculation the two percentages are both
    present or both absent, and a derived percentage is never derived
    again: when an update that carries neither percentage (it may change
    humidity or impurities) is assigned to the object and [save] runs
    again, both percentages are the ones of the first save. *)
Theorem porcentaje_derivado_no_se_recalcula (o : LoteProcesado) (vd : Datos) :
  d_grano_bueno vd = None ->
  d_grano_defectuoso vd = None ->
  (grano_bueno (save_calculo o) = None <-> grano_defectuoso (save_calculo o) = None)
  /\ grano_bueno (save_calculo (asignar vd (save_calculo o)))
     = grano_bueno (save_calculo o)
  /\ grano_defectuoso (save_calculo (asignar vd (save_calculo o)))
     = grano_defectuoso (save_calculo o).
Proof.
  intros Hb Hd.
  assert (Hpar : grano_bueno (save_calculo o) = None
                 <-> grano_defectuoso (save_calculo o) = None).
  { unfold save_calculo.
    destruct (grano_defectuoso o) eqn:Hd0, (grano_bueno o) eqn:Hb0; simpl;
      rewrite ?Hd0, ?Hb0; split; congruence. }
  split; [exact Hpar|].
  set (o1 := save_calculo o) in *.
  assert (Hb1 : grano_bueno (asignar vd o1) = grano_bueno o1).
  { simpl. rewrite Hb. reflexivity. }
  assert (Hd1 : grano_defectuoso (asignar vd o1) = grano_defectuoso o1).
  { simpl. rewrite Hd. reflexivity. }
  unfold save_calculo. rewrite Hb1, Hd1.
  destruct (grano_defectuoso o1) eqn:Hd2, (grano_bueno o1) eqn:Hb2;
    try (split; assumption).
  - destruct Hpar as [Hpar _]. discriminate (Hpar eq_refl).
  - destruct Hpar as [_ Hpar]. discriminate (Hpar eq_refl).
Qed.

(** Humidity goes from 10 to 30 after the defective percentage was
    derived as 5: it stays 5. *)
Lemma porcentaje_derivado_no_se_recalcula_witness :
  let o := Ejemplo.lote_de 1 "L-021" 1000 500 (Some 8000) None in
  let vd := mkDatos None None None None None (Some 3000) None None None None in
  humedad (save_calculo (asignar vd (save_calculo o))) = Some 3000
  /\ grano_defectuoso (save_calculo (asignar vd (save_calculo o))) = Some 500.
Proof.
  intros o vd.
  destruct (porcentaje_derivado_no_se_recalcula o vd eq_refl eq_refl) as (_ & _ & Hd).
  split; [reflexivity | exact Hd].
Defined.

(** ** White space around the lot code *)

Lemma lstrip_espacios (ws s : str) :
  forallb isspace ws = true -> lstrip (ws ++ s) = lstrip s.
Proof.
  induction ws as [|c r IH]; simpl; [reflexivity|].
  intros [Hc Hr]%andb_prop. rewrite Hc. auto.
Qed.

Lemma lstrip_nil_espacios (s : str) :
  lstrip s = [] -> forallb isspace s = true.
Proof.
  induction s as [|c r IH]; simpl; [reflexivity|].
  destruct (isspace c); [simpl; exact IH | discriminate].
Qed.

Lemma lstrip_app (s t : str) :
  lstrip s <> [] -> lstrip (s ++ t) = lstrip s ++ t.
Proof.
  induction s as [|c r IH]; simpl; [congruence|].
  destruct (isspace c); [exact IH | reflexivity].
Qed.

Lemma rstrip_espacios (s ws : str) :
  forallb isspace ws = true -> rstrip (s ++ ws) = rstrip s.
Proof.
  intros Hws. unfold rstrip. rewrite rev_app_distr, lstrip_espacios; [reflexivity|].
  rewrite forallb_forall in *. intros x Hx. apply Hws, in_rev. exact Hx.
Qed.

Lemma strip_espacios (ws1 s ws2 : str) :
  forallb isspace ws1 = true ->
  forallb isspace ws2 = true ->
  strip (ws1 ++ s ++ ws2) = strip s.
Proof.
  intros H1 H2. unfold strip. rewrite lstrip_espacios by exact H1.
  destruct (lstrip s) as [|c r] eqn:Hs.
  - rewrite lstrip_espacios; [| apply lstrip_nil_espacios; exact Hs].
    assert (Hn : lstrip ws2 = []).
    { clear -H2. induction ws2 as [|x l IH]; simpl; [reflexivity|].
      simpl in H2. apply andb_prop in H2 as [-> Hl]. auto. }
    rewrite Hn. reflexivity.
  - rewrite lstrip_app by (rewrite Hs; discriminate).
    rewrite Hs. apply rstrip_espacios. exact H2.
Qed.

Section CodigoEspacios.

Context `{Externos}.

(** X3. White space before and after the lot code does not count: the
    normalised code of [ws1 + s + ws2] is that of [s] whenever [ws1] and
    [ws2] consist of white space. *)
Theorem validate_codigo_lote_ignora_espacios (ws1 s ws2 : str) :
  forallb isspace ws1 = true ->
  forallb isspace ws2 = true ->
  validate_codigo_lote (ws1 ++ s ++ ws2) = validate_codigo_lote s.
Proof.
  intros H1 H2. unfold validate_codigo_lote.
  rewrite strip_espacios by assumption. reflexivity.
Qed.

End CodigoEspacios.

Lemma validate_codigo_lote_ignora_espacios_witness :
  @validate_codigo_lote (Ejemplo.externos None) (py "  " ++ py "l 7" ++ [9; 10; 0x3000]%N)
  = py "L 7".
Proof.
  rewrite (@validate_codigo_lote_ignora_espacios (Ejemplo.externos None)
             (py "  ") (py "l 7") [9; 10; 0x3000]%N eq_refl eq_refl).
  reflexivity.
Defined.

(** ** What the create and update views write *)

Lemma restricciones_creado_en (cs : list Campo) (k t : Z) (o : LoteProcesado) (w : Mundo) :
  restricciones cs k (set_creado_en t o) w = restricciones cs k o w.
Proof. reflexivity. Qed.

Lemma save_codigo_calculo (o : LoteProcesado) :
  codigo_lote (save_calculo o) = codigo_lote o.
Proof. unfold save_calculo. repeat case_match; reflexivity. Qed.

(** The constraints of a whole row, spelled out. *)
Lemma restricciones_todos (k : Z) (o : LoteProcesado) (w : Mundo) :
  restricciones todos_los_campos k o w = true ->
  is_Some (humedad o) /\ is_Some (impurezas o)
  /\ (forall k' r, lotes w !! k' = Some r -> k' = k \/ codigo_lote r <> codigo_lote o)
  /\ is_Some (usuarios w !! cliente o).
Proof.
  unfold restricciones.
  intros (((Hh & Hi)%andb_prop & Hc)%andb_prop & Hu)%andb_prop.
  simpl in Hh, Hi, Hc, Hu.
  apply bool_decide_eq_true in Hh, Hi, Hu.
  unfold codigo_libre in Hc. apply bool_decide_eq_true in Hc.
  repeat split; assumption.
Qed.

Section Escritura.

Context `{Externos}.

(** The object that a create request builds has no key and is not
    flagged as delivered. *)
Lemma nuevo_lote_inicial (vd : Datos) (o : LoteProcesado) :
  nuevo_lote vd = Some o -> pk o = None /\ enviado o = false.
Proof.
  unfold nuevo_lote. repeat case_match; try discriminate.
  intros [= <-]. split; reflexivity.
Qed.

(** The run of [registrar_lote], case by case. *)
Lemma registrar_lote_corre (data : Datos) (w : Mundo) :
  registrar_lote data w
  = match is_valid None false data w with
    | inl errs => (Ok (mkResponse HTTP_400_BAD_REQUEST (CuerpoErrores errs)), w)
    | inr vd =>
        match nuevo_lote vd with
        | None => (Raise IntegrityError, w)
        | Some o =>
            let k := secuencia w in
            let o' := set_creado_en (reloj w) (set_pk (Some k) (save_calculo o)) in
            if restricciones todos_los_campos k o' w && bool_decide (lotes w !! k = None)
            then (Ok (mkResponse HTTP_201_CREATED (CuerpoLote o')),
                  anotar (Log INFO LoteRegistrado)
                    (set_secuencia (k + 1) (set_lotes (<[k := o']> (lotes w)) w)))
            else (Raise IntegrityError, w)
        end
    end.
Proof.
  unfold registrar_lote, api_view, try_except, bind, gets. simpl.
  destruct (is_valid None false data w) as [errs|vd]; [reflexivity|].
  unfold create. destruct (nuevo_lote vd) as [o|] eqn:Hnew; [|reflexivity].
  destruct (nuevo_lote_inicial vd o Hnew) as [Hpk _].
  unfold con_objeto, bind. rewrite save_unfold. unfold Model_save.
  rewrite (proj2 (save_calculo_enviado o)), Hpk.
  destruct (restricciones _ _ _ w && _); reflexivity.
Qed.

(** The run of [actualizar_lote], case by case. *)
Lemma actualizar_lote_corre (method : Metodo) (k : Z) (data : Datos) (w : Mundo) :
  actualizar_lote method k data w
  = match lotes w !! k with
    | None => (Ok (mkResponse HTTP_404_NOT_FOUND CuerpoNoEncontrado), w)
    | Some fila =>
        match is_valid (Some (set_pk (Some k) fila)) (es_PATCH method) data w with
        | inl errs => (Ok (mkResponse HTTP_400_BAD_REQUEST (CuerpoErrores errs)), w)
        | inr vd =>
            let o := save_calculo (asignar vd (set_pk (Some k) fila)) in
            if restricciones todos_los_campos k o w
            then (Ok (mkResponse HTTP_200_OK (CuerpoLote o)),
                  anotar (Log INFO (LoteActualizado k))
                    (set_lotes (<[k := o]> (lotes w)) w))
            else (Raise IntegrityError, w)
        end
    end.
Proof.
  unfold actualizar_lote, api_view, try_except, bind, get_object_or_404, gets.
  destruct (lotes w !! k) as [fila|] eqn:Hrow; [|reflexivity]. simpl.
  destruct (is_valid _ _ data w) as [errs|vd]; [reflexivity|].
  unfold update, con_objeto, bind. rewrite save_unfold. unfold Model_save.
  rewrite (proj2 (save_calculo_enviado _)).
  change (pk (asignar vd (set_pk (Some k) fila))) with (Some k).
  cbv beta iota. rewrite Hrow.
  destruct (restricciones todos_los_campos k
              (save_calculo (asignar vd (set_pk (Some k) fila))) w); reflexivity.
Qed.

(** X4. A request for a lot that is not in the table is answered 404 by
    the update, detail and dispatch views, and the world is untouched:
    no row, no log entry, no message. *)
Theorem lote_inexistente_responde_404 (method : Metodo) (k : Z) (data : Datos) (w : Mundo) :
  lotes w !! k = None ->
  actualizar_lote method k data w
  = (Ok (mkResponse HTTP_404_NOT_FOUND CuerpoNoEncontrado), w)
  /\ detalle_lote k w = (Ok (mkResponse HTTP_404_NOT_FOUND CuerpoNoEncontrado), w)
  /\ enviar_informe_pdf k w = (Ok (mkResponse HTTP_404_NOT_FOUND CuerpoNoEncontrado), w).
Proof.
  intros Hrow. split; [|split].
  - rewrite actualizar_lote_corre, Hrow. reflexivity.
  - unfold detalle_lote, api_view, try_except, bind, get_object_or_404.
    rewrite Hrow. reflexivity.
  - unfold enviar_informe_pdf, api_view, try_except, bind, get_object_or_404.
    rewrite Hrow. reflexivity.
Qed.

(** X5. An accepted create request inserts one row under the next key of
    the sequence, which was free, and leaves every other row, the users
    and the clock as they were; the new row is not flagged as delivered
    and is stamped with the current time, whatever the request says. *)
Theorem registrar_lote_inserta_una_fila
    (data : Datos) (w w' : Mundo) (resp : Response) :
  registrar_lote data w = (Ok resp, w') ->
  status resp = HTTP_201_CREATED ->
  exists o,
    cuerpo resp = CuerpoLote o
    /\ pk o = Some (secuencia w)
    /\ lotes w !! secuencia w = None
    /\ lotes w' = <[secuencia w := o]> (lotes w)
    /\ secuencia w' = secuencia w + 1
    /\ usuarios w' = usuarios w
    /\ enviado o = false
    /\ creado_en o = reloj w
    /\ bitacora w' = bitacora w ++ [Log INFO LoteRegistrado].
Proof.
  rewrite registrar_lote_corre.
  destruct (is_valid None false data w) as [errs|vd].
  { intros [= <- <-]. simpl. unfold HTTP_400_BAD_REQUEST, HTTP_201_CREATED. lia. }
  destruct (nuevo_lote vd) as [o|] eqn:Hnew; [|discriminate].
  destruct (nuevo_lote_inicial vd o Hnew) as [_ Henv].
  simpl.
  destruct (restricciones _ _ _ w) eqn:Hres; simpl; [|discriminate].
  destruct (bool_decide (lotes w !! secuencia w = None)) eqn:Hfree; simpl; [|discriminate].
  apply bool_decide_eq_true in Hfree.
  intros [= <- <-] _. eexists. repeat split; try reflexivity; try assumption.
  simpl. rewrite (proj1 (save_calculo_enviado o)). exact Henv.
Qed.

(** X6. An accepted update replaces the row of the addressed key and no
    other; the key, the delivered flag and the creation stamp of the row
    are kept (they are read-only for the serializer), and the sequence
    and the users are as before. *)
Theorem actualizar_lote_reemplaza_una_fila
    (method : Metodo) (k : Z) (data : Datos) (w w' : Mundo) (resp : Response) :
  actualizar_lote method k data w = (Ok resp, w') ->
  status resp = HTTP_200_OK ->
  exists fila o,
    lotes w !! k = Some fila
    /\ cuerpo resp = CuerpoLote o
    /\ lotes w' = <[k := o]> (lotes w)
    /\ pk o = Some k
    /\ enviado o = enviado fila
    /\ creado_en o = creado_en fila
    /\ secuencia w' = secuencia w
    /\ usuarios w' = usuarios w
    /\ bitacora w' = bitacora w ++ [Log INFO (LoteActualizado k)].
Proof.
  rewrite actualizar_lote_corre.
  destruct (lotes w !! k) as [fila|] eqn:Hrow.
  2: { intros [= <- <-]. simpl. unfold HTTP_404_NOT_FOUND, HTTP_200_OK. lia. }
  destruct (is_valid _ _ data w) as [errs|vd].
  { intros [= <- <-]. simpl. unfold HTTP_400_BAD_REQUEST, HTTP_200_OK. lia. }
  simpl. destruct (restricciones _ _ _ w); [|discriminate].
  intros [= <- <-] _. exists fila. eexists.
  split; [reflexivity|]. split; [reflexivity|]. split; [reflexivity|].
  split; [apply save_calculo_enviado|].
  split; [rewrite (proj1 (save_calculo_enviado _)); reflexivity|].
  split; [|repeat split].
  unfold save_calculo. repeat case_match; reflexivity.
Qed.

End Escritura.

Lemma lote_inexistente_responde_404_witness :
  @enviar_informe_pdf (Ejemplo.externos None) 9 Ejemplo.mundo
  = (Ok (mkResponse HTTP_404_NOT_FOUND CuerpoNoEncontrado), Ejemplo.mundo).
Proof.
  exact (proj2 (proj2 (@lote_inexistente_responde_404 (Ejemplo.externos None)
                         PUT 9 (Ejemplo.datos 1 "L-009" 1000 500 None None)
                         Ejemplo.mundo eq_refl))).
Defined.

Lemma registrar_lote_inserta_una_fila_witness :
  let ext := Ejemplo.externos None in
  let data := Ejemplo.datos 1 "L-009" 1000 500 (Some (Some 8000)) None in
  exists o,
    lotes (snd (@registrar_lote ext data Ejemplo.mundo))
    = <[4 := o]> (lotes Ejemplo.mundo)
    /\ enviado o = false.
Proof.
  intros ext data.
  destruct (@registrar_lote ext data Ejemplo.mundo) as [r w'] eqn:Hrun.
  assert (Hr : exists resp, r = Ok resp /\ status resp = HTTP_201_CREATED).
  { vm_compute in Hrun. injection Hrun as <- _. eexists. split; reflexivity. }
  destruct Hr as (resp & -> & Hst).
  destruct (@registrar_lote_inserta_una_fila ext data Ejemplo.mundo w' resp Hrun Hst)
    as (o & _ & _ & _ & Ht & _ & _ & He & _).
  exists o. split; [exact Ht | exact He].
Defined.

Lemma actualizar_lote_reemplaza_una_fila_witness :
  let ext := Ejemplo.externos None in
  let data := mkDatos None None None None None (Some 500) None None None None in
  exists o,
    lotes (snd (@actualizar_lote ext PATCH 1 data Ejemplo.mundo))
    = <[1 := o]> (lotes Ejemplo.mundo)
    /\ enviado o = false.
Proof.
  intros ext data.
  destruct (@actualizar_lote ext PATCH 1 data Ejemplo.mundo) as [r w'] eqn:Hrun.
  assert (Hr : exists resp, r = Ok resp /\ status resp = HTTP_200_OK).
  { vm_compute in Hrun. injection Hrun as <- _. eexists. split; reflexivity. }
  destruct Hr as (resp & -> & Hst).
  destruct (@actualizar_lote_reemplaza_una_fila ext PATCH 1 data Ejemplo.mundo w' resp Hrun Hst)
    as (fila & o & Hrow & _ & Ht & _ & He & _).
  exists o. split; [exact Ht|].
  rewrite He. vm_compute in Hrow. injection Hrow as <-. reflexivity.
Defined.

(** ** A code that is already taken *)

Section CodigoTomado.

Context `{Externos}.

(** X7. The uniqueness check of the serializer sees the code before it is
    normalised.  When a create request passes validation and the
    normalised code in [validated_data] is the code of a stored row, the
    insert violates the UNIQUE constraint: the view raises
    [IntegrityError] without answering, and nothing is written or logged. *)
Theorem registrar_lote_codigo_tomado
    (data vd : Datos) (w : Mundo) (k : Z) (fila : LoteProcesado) :
  is_valid None false data w = inr vd ->
  lotes w !! k = Some fila ->
  d_codigo_lote vd = Some (codigo_lote fila) ->
  registrar_lote data w = (Raise IntegrityError, w).
Proof.
  intros Hval Hrow Hcod.
  rewrite registrar_lote_corre, Hval.
  destruct (nuevo_lote vd) as [o|] eqn:Hnew; [|reflexivity].
  assert (Hco : codigo_lote o = codigo_lote fila).
  { unfold nuevo_lote in Hnew. repeat case_match; try discriminate.
    injection Hnew as <-. simpl. rewrite Hcod. reflexivity. }
  cbv zeta.
  destruct (restricciones todos_los_campos (secuencia w) _ w) eqn:Hres;
    [|reflexivity].
  destruct (bool_decide (lotes w !! secuencia w = None)) eqn:Hfree;
    [|reflexivity].
  exfalso. apply bool_decide_eq_true in Hfree.
  apply restricciones_todos in Hres as (_ & _ & Huniq & _).
  destruct (Huniq k fila Hrow) as [-> | Hne].
  - congruence.
  - apply Hne. simpl. rewrite save_codigo_calculo. symmetry. exact Hco.
Qed.

End CodigoTomado.

(** The code of lot 1 in lower case and with blanks. *)
Lemma registrar_lote_codigo_tomado_witness :
  @registrar_lote (Ejemplo.externos None)
    (Ejemplo.datos 1 " l-001 " 1000 500 None None) Ejemplo.mundo
  = (Raise IntegrityError, Ejemplo.mundo).
Proof.
  eapply (@registrar_lote_codigo_tomado (Ejemplo.externos None)
            (Ejemplo.datos 1 " l-001 " 1000 500 None None) _ Ejemplo.mundo 1).
  - vm_compute. reflexivity.
  - reflexivity.
  - reflexivity.
Defined.

(** ** Reading back *)

Lemma set_pk_id (o : LoteProcesado) (k : Z) : pk o = Some k -> set_pk (Some k) o = o.
Proof. destruct o; simpl; intros ->; reflexivity. Qed.

(** The detail view answers with the stored row and changes nothing. *)
Lemma detalle_lote_corre (k : Z) (w : Mundo) (fila : LoteProcesado) :
  lotes w !! k = Some fila ->
  detalle_lote k w = (Ok (mkResponse HTTP_200_OK (CuerpoLote (set_pk (Some k) fila))), w).
Proof.
  intros Hrow. unfold detalle_lote, api_view, try_except, bind, get_object_or_404.
  rewrite Hrow. reflexivity.
Qed.

Section Lectura.

Context `{Externos}.

(** X8. What an accepted create or update request answers is what the
    detail view then returns for the key of that lot, and reading it
    changes nothing. *)
Theorem detalle_lote_devuelve_lo_guardado
    (r : Ruta) (data : Datos) (w w' : Mundo) (resp : Response) (o : LoteProcesado) :
  datos_de r = Some data ->
  urlpatterns r w = (Ok resp, w') ->
  cuerpo resp = CuerpoLote o ->
  exists k,
    pk o = Some k
    /\ detalle_lote k w' = (Ok (mkResponse HTTP_200_OK (CuerpoLote o)), w').
Proof.
  intros Hdatos Hrun Hbody.
  destruct r as [data0 | method k0 data0 | k0]; simpl in Hdatos, Hrun;
    [| | discriminate].
  - rewrite registrar_lote_corre in Hrun.
    destruct (is_valid None false data0 w); [injection Hrun as <- <-; discriminate|].
    destruct (nuevo_lote d); [|discriminate].
    cbv zeta in Hrun.
    destruct (restricciones _ _ _ w && _); [|discriminate].
    injection Hrun as <- <-. simpl in Hbody. injection Hbody as <-.
    exists (secuencia w). split; [reflexivity|].
    erewrite detalle_lote_corre; [| simpl; apply lookup_insert_eq].
    reflexivity.
  - rewrite actualizar_lote_corre in Hrun.
    destruct (lotes w !! k0); [|injection Hrun as <- <-; discriminate].
    destruct (is_valid _ _ data0 w); [injection Hrun as <- <-; discriminate|].
    cbv zeta in Hrun.
    destruct (restricciones _ _ _ w); [|discriminate].
    injection Hrun as <- <-. simpl in Hbody. injection Hbody as <-.
    assert (Hpk : pk (save_calculo (asignar d (set_pk (Some k0) l))) = Some k0)
      by apply save_calculo_enviado.
    exists k0. split; [exact Hpk|].
    erewrite detalle_lote_corre; [| simpl; apply lookup_insert_eq].
    rewrite (set_pk_id _ k0 Hpk). reflexivity.
Qed.

End Lectura.

Lemma detalle_lote_devuelve_lo_guardado_witness :
  let ext := Ejemplo.externos None in
  let data := Ejemplo.datos 1 "L-009" 1000 500 (Some (Some 8000)) None in
  exists o w',
    @registrar_lote ext data Ejemplo.mundo
    = (Ok (mkResponse HTTP_201_CREATED (CuerpoLote o)), w')
    /\ detalle_lote 4 w' = (Ok (mkResponse HTTP_200_OK (CuerpoLote o)), w').
Proof.
  intros ext data.
  destruct (@registrar_lote ext data Ejemplo.mundo) as [r w'] eqn:Hrun.
  assert (Hr : exists o, r = Ok (mkResponse HTTP_201_CREATED (CuerpoLote o))
                         /\ pk o = Some 4).
  { vm_compute in Hrun. injection Hrun as <- _. eexists. split; reflexivity. }
  destruct Hr as (o & -> & Hpk).
  destruct (@detalle_lote_devuelve_lo_guardado ext (lote_create data) data
              Ejemplo.mundo w' _ o eq_refl Hrun eq_refl) as (k & Hk & Hdet).
  exists o, w'. split; [reflexivity|].
  assert (k = 4) as -> by congruence. exact Hdet.
Defined.

(** ** The list view *)

Global Instance mas_reciente_total : Total mas_reciente.
Proof. intros x y. unfold mas_reciente. lia. Qed.

Global Instance mas_reciente_trans : Transitive mas_reciente.
Proof. intros x y z. unfold mas_reciente. lia. Qed.

Lemma elem_of_objetos (w : Mundo) (o : LoteProcesado) :
  o ∈ objetos w <-> exists k fila, lotes w !! k = Some fila /\ o = set_pk (Some k) fila.
Proof.
  unfold objetos. rewrite list_elem_of_fmap. split.
  - intros ([k fila] & -> & Hin). apply elem_of_map_to_list in Hin. eauto.
  - intros (k & fila & Hrow & ->). exists (k, fila).
    split; [reflexivity | apply elem_of_map_to_list; exact Hrow].
Qed.

(** Three lots processed on days 1, 3 and 2 are listed as 3, 2, 1. *)
Example listar_lotes_ejemplo :
  let fila k dia :=
    mkLote (Some k) 1 (py "L") CAFE dia 100 (Some 0) (Some 0) None None [] false 0 in
  let w := mkMundo (<[1 := fila 1 1]> (<[2 := fila 2 3]> (<[3 := fila 3 2]> ∅)))
             ∅ 4 0 [] [] in
  (fun r => option_map (fun x => map fecha_procesamiento (data_lista x))
              (match r with Ok x => Some x | Raise _ => None end))
    (fst (listar_lotes w))
  = Some [3; 2; 1].
Proof. vm_compute. reflexivity. Qed.

(** X9. The list view answers 200 with every stored lot exactly once (the
    answer is a permutation of the rows, each with its key), every lot
    before all lots of an earlier date, and it changes nothing. *)
Theorem listar_lotes_ordenado_y_completo (w : Mundo) :
  exists resp,
    listar_lotes w = (Ok resp, w)
    /\ status_lista resp = HTTP_200_OK
    /\ data_lista resp ≡ₚ objetos w
    /\ StronglySorted mas_reciente (data_lista resp)
    /\ (forall o, o ∈ data_lista resp
                  <-> exists k fila, lotes w !! k = Some fila /\ o = set_pk (Some k) fila).
Proof.
  eexists. split; [reflexivity|]. simpl.
  split; [reflexivity|].
  split; [apply merge_sort_Permutation|].
  split; [apply StronglySorted_merge_sort; apply _|].
  intros o. rewrite merge_sort_Permutation. apply elem_of_objetos.
Qed.

(** ** Every outcome of the delivery step and of the dispatch endpoint *)

Section Resultados.

Context `{Externos}.

Local Arguments urlsafe_b64encode : simpl never.
Local Arguments SHA256.digest : simpl never.

(** The run of [enviar_informe_por_correo], case by case. *)
Lemma enviar_informe_por_correo_corre (pdf_bytes : bytes) (o : LoteProcesado) (w : Mundo) :
  enviar_informe_por_correo pdf_bytes (o, w)
  = match usuarios w !! cliente o with
    | None => (Raise DoesNotExist, (o, w))
    | Some u =>
        if negb (str_truthy (email u)) then (Raise (ValueError SinCorreo), (o, w))
        else
          let ctx := mkContexto (get_full_name u) (codigo_lote o) (fecha_procesamiento o) in
          match render_to_string email_html ctx with
          | inl exc => (Raise exc, (o, w))
          | inr html_body =>
              match render_to_string email_txt ctx with
              | inl exc => (Raise exc, (o, w))
              | inr text_body =>
                  let m := mensaje_informe o u (dict_get (email u) []) html_body
                             text_body pdf_bytes in
                  match email_send m with
                  | Some exc =>
                      (Raise exc,
                       (o, anotar (Log ERROR (ErrorEnviando (codigo_lote o) exc)) w))
                  | None =>
                      let w1 := anotar (CorreoEnviado m) w in
                      let o1 := save_calculo (set_enviado true o) in
                      let falla exc :=
                        (Raise exc,
                         (o1, anotar (Log ERROR (ErrorEnviando (codigo_lote o) exc)) w1)) in
                      match pk o with
                      | None => falla (ValueError SinClavePrimaria)
                      | Some k =>
                          match lotes w !! k with
                          | None => falla DatabaseError
                          | Some fila =>
                              (Ok tt,
                               (o1, set_lotes (<[k := set_enviado true fila]> (lotes w)) w1))
                          end
                      end
                  end
              end
          end
    end.
Proof.
  unfold enviar_informe_por_correo, bind, self, gets, en_mundo, lote_cliente.
  simpl. destruct (usuarios w !! cliente o) as [u|]; [|reflexivity]. simpl.
  destruct (str_truthy (email u)); [|reflexivity]. simpl.
  unfold render.
  destruct (render_to_string email_html _) as [exc|html_body]; [reflexivity|].
  destruct (render_to_string email_txt _) as [exc|text_body]; [reflexivity|].
  simpl. unfold try_except, bind, send.
  destruct (email_send _) as [exc|]; [reflexivity|].
  unfold en_mundo, modify. simpl.
  rewrite save_unfold. unfold Model_save.
  rewrite (proj2 (save_calculo_enviado (set_enviado true o))). simpl pk.
  destruct (pk o) as [k|].
  - cbv beta iota. change (lotes (anotar _ w)) with (lotes w).
    destruct (lotes w !! k) as [fila|].
    + simpl. rewrite copiar_enviado, (proj1 (save_calculo_enviado _)). reflexivity.
    + simpl. rewrite save_codigo_calculo. reflexivity.
  - simpl. rewrite save_codigo_calculo. reflexivity.
Qed.

(** X10. Whatever the libraries do, a delivery step that raises has
    written nothing to the tables: rows, users and sequence are as
    before. *)
Theorem entrega_fallida_no_escribe
    (pdf_bytes : bytes) (o o' : LoteProcesado) (w w' : Mundo) (exc : Excepcion) :
  enviar_informe_por_correo pdf_bytes (o, w) = (Raise exc, (o', w')) ->
  lotes w' = lotes w /\ usuarios w' = usuarios w /\ secuencia w' = secuencia w.
Proof.
  rewrite enviar_informe_por_correo_corre.
  cbv zeta.
  repeat case_match; intros Heq; try discriminate;
    injection Heq as _ _ <-; auto.
Qed.

(** X11. A partial success.  When the transport takes the message but
    the object has no key, or its row is no longer in the table, the
    message has been sent, the object in memory is flagged as delivered,
    the table is unchanged, the error is logged and raised. *)
Theorem entrega_enviada_sin_fila
    (pdf_bytes : bytes) (o : LoteProcesado) (w : Mundo) (u : Usuario)
    (destino html_body text_body : str) :
  usuarios w !! cliente o = Some u ->
  email u = Some destino ->
  destino <> [] ->
  render_to_string email_html
    (mkContexto (get_full_name u) (codigo_lote o) (fecha_procesamiento o))
  = inr html_body ->
  render_to_string email_txt
    (mkContexto (get_full_name u) (codigo_lote o) (fecha_procesamiento o))
  = inr text_body ->
  email_send (mensaje_informe o u destino html_body text_body pdf_bytes) = None ->
  (forall k, pk o = Some k -> lotes w !! k = None) ->
  exists exc o' w',
    enviar_informe_por_correo pdf_bytes (o, w) = (Raise exc, (o', w'))
    /\ (exc = ValueError SinClavePrimaria \/ exc = DatabaseError)
    /\ enviado o' = true
    /\ lotes w' = lotes w
    /\ bitacora w'
       = bitacora w
         ++ [CorreoEnviado (mensaje_informe o u destino html_body text_body pdf_bytes);
             Log ERROR (ErrorEnviando (codigo_lote o) exc)].
Proof.
  intros Hu Hemail Hne Hhtml Htxt Hsend Hgone.
  rewrite enviar_informe_por_correo_corre, Hu, Hemail, (str_truthy_Some destino Hne).
  simpl. rewrite Hhtml, Htxt, Hsend.
  destruct (pk o) as [k|] eqn:Hpk.
  - rewrite (Hgone k eq_refl).
    eexists _, _, _. split; [reflexivity|]. split; [right; reflexivity|].
    split; [apply save_calculo_enviado|]. split; [reflexivity|].
    simpl. rewrite <- app_assoc. reflexivity.
  - eexists _, _, _. split; [reflexivity|]. split; [left; reflexivity|].
    split; [apply save_calculo_enviado|]. split; [reflexivity|].
    simpl. rewrite <- app_assoc. reflexivity.
Qed.

End Resultados.

Lemma entrega_fallida_no_escribe_witness :
  let ext := Ejemplo.externos (Some (ErrorExterno 7)) in
  let o := Ejemplo.en_tabla 1 (Ejemplo.lote_de 1 "L-001" 1000 500 (Some 8000) (Some 500)) in
  lotes (snd (snd (@enviar_informe_por_correo ext [1; 2; 3] (o, Ejemplo.mundo))))
  = lotes Ejemplo.mundo.
Proof.
  intros ext o.
  destruct (@enviar_informe_por_correo ext [1; 2; 3] (o, Ejemplo.mundo))
    as [r [o' w']] eqn:Hrun.
  assert (Hr : r = Raise (ErrorExterno 7)).
  { pose proof (f_equal fst Hrun) as Hfst. vm_compute in Hfst. congruence. }
  subst r.
  exact (proj1 (@entrega_fallida_no_escribe ext [1; 2; 3] o o' Ejemplo.mundo w' _ Hrun)).
Defined.

(** An object that was never saved is handed to the delivery step. *)
Lemma entrega_enviada_sin_fila_witness :
  let ext := Ejemplo.externos None in
  let o := Ejemplo.lote_de 1 "L-030" 1000 500 (Some 8000) (Some 500) in
  exists o' w',
    @enviar_informe_por_correo ext [1; 2; 3] (o, Ejemplo.mundo)
    = (Raise (ValueError SinClavePrimaria), (o', w'))
    /\ existsb es_correo (bitacora w') = true
    /\ lotes w' = lotes Ejemplo.mundo.
Proof.
  intros ext o.
  destruct (@entrega_enviada_sin_fila ext [1; 2; 3] o Ejemplo.mundo Ejemplo.ana
              (py "ana@example.com") (py "Lote L-030") (py "Lote L-030")
              eq_refl eq_refl ltac:(discriminate) eq_refl eq_refl eq_refl
              ltac:(intros k; discriminate))
    as (exc & o' & w' & Hrun & _ & _ & Ht & Hlog).
  exists o', w'.
  assert (Hexc : exc = ValueError SinClavePrimaria).
  { pose proof (f_equal fst Hrun) as Hfst. vm_compute in Hfst. congruence. }
  subst exc. split; [exact Hrun|]. split; [|exact Ht].
  rewrite Hlog. reflexivity.
Defined.

Section Despachos.

Context `{Externos}.

Local Arguments urlsafe_b64encode : simpl never.
Local Arguments SHA256.digest : simpl never.

(** Closes the goal of one failed run of the endpoint. *)
Ltac despacho_sin_cambios :=
  eexists _, _, _; split; [reflexivity|];
  split; [simpl; rewrite <- ?app_assoc; reflexivity|];
  split; [reflexivity|]; split; [reflexivity|];
  right; split; [auto|]; split; reflexivity.

(** Every run of the dispatch endpoint for a stored lot whose client
    exists. *)
Lemma despacho_casos (k : Z) (w : Mundo) (fila : LoteProcesado) (u : Usuario) :
  lotes w !! k = Some fila ->
  usuarios w !! cliente fila = Some u ->
  exists resp w' evs,
    enviar_informe_pdf k w = (Ok resp, w')
    /\ bitacora w' = bitacora w ++ evs
    /\ usuarios w' = usuarios w
    /\ secuencia w' = secuencia w
    /\ ((status resp = HTTP_200_OK
         /\ lotes w' = <[k := set_enviado true fila]> (lotes w)
         /\ exists pdf m,
              evs = [PdfGenerado (codigo_lote fila) pdf; CorreoEnviado m;
                     Log INFO (InformeEnviado k (email u))])
        \/ ((status resp = HTTP_400_BAD_REQUEST
             \/ status resp = HTTP_500_INTERNAL_SERVER_ERROR)
            /\ lotes w' = lotes w
            /\ existsb es_correo evs = false)).
Proof.
  intros Hrow Hu.
  unfold enviar_informe_pdf, api_view, try_except, bind, get_object_or_404, lote_cliente.
  rewrite Hrow. simpl. rewrite Hu. simpl.
  destruct (str_truthy (cedula u)) eqn:Hced; simpl; [|despacho_sin_cambios].
  unfold con_objeto, try_except, bind, generar_pdf_lote, bind, self, gets,
    en_mundo, lote_cliente.
  simpl. rewrite Hu. simpl.
  destruct (canvas_pdf (set_pk (Some k) fila) u) as [exc|pdf]; simpl;
    [despacho_sin_cambios|].
  unfold encriptar_con_cedula. rewrite Hced. simpl.
  destruct (encode_utf8 (dict_get (cedula u) [])) as [encoded|]; simpl;
    [|despacho_sin_cambios].
  rewrite enviar_informe_por_correo_corre. simpl. rewrite Hu, Hrow.
  destruct (str_truthy (email u)); simpl; [|despacho_sin_cambios].
  destruct (render_to_string email_html _) as [exc|html_body]; simpl;
    [despacho_sin_cambios|].
  destruct (render_to_string email_txt _) as [exc|text_body]; simpl;
    [despacho_sin_cambios|].
  destruct (email_send _) as [exc|]; simpl; [despacho_sin_cambios|].
  unfold modify. simpl.
  rewrite (save_solo_enviado _ _ k (set_enviado true fila));
    [| simpl; rewrite (proj2 (save_calculo_enviado _)); reflexivity
     | simpl; apply lookup_insert_eq ].
  simpl.
  eexists _, _, _. split; [reflexivity|].
  split; [simpl; rewrite <- !app_assoc; reflexivity|].
  split; [reflexivity|]. split; [reflexivity|].
  left. split; [reflexivity|]. split.
  - simpl. rewrite insert_insert_eq. reflexivity.
  - eexists _, _. reflexivity.
Qed.


(** X12. For a stored lot whose client exists the dispatch endpoint always
    answers, with 200, 400 or 500, and never touches users or sequence.
    It answers 200 exactly when a message went out: then the row of the
    lot, and only it, is flagged as delivered, and the log shows one
    rendering, one message and the success entry.  With 400 or 500 no
    message went out and the table is as before. *)
Theorem despacho_resultados (k : Z) (w : Mundo) (fila : LoteProcesado) (u : Usuario) :
  lotes w !! k = Some fila ->
  usuarios w !! cliente fila = Some u ->
  exists resp w' evs,
    enviar_informe_pdf k w = (Ok resp, w')
    /\ bitacora w' = bitacora w ++ evs
    /\ usuarios w' = usuarios w
    /\ secuencia w' = secuencia w
    /\ ((status resp = HTTP_200_OK
         /\ lotes w' = <[k := set_enviado true fila]> (lotes w)
         /\ exists pdf m,
              evs = [PdfGenerado (codigo_lote fila) pdf; CorreoEnviado m;
                     Log INFO (InformeEnviado k (email u))])
        \/ ((status resp = HTTP_400_BAD_REQUEST
             \/ status resp = HTTP_500_INTERNAL_SERVER_ERROR)
            /\ lotes w' = lotes w
            /\ existsb es_correo evs = false)).
Proof.
  intros Hrow Hu.
  destruct (despacho_casos k w fila u Hrow Hu)
    as (resp & w' & evs & Hrun & Hlog & Husr & Hseq & Hcasos).
  exists resp, w', evs.
  split; [exact Hrun|]. split; [exact Hlog|].
  split; [exact Husr|]. split; [exact Hseq|].
  exact Hcasos.
Qed.

End Despachos.

(** Lot 1: the client has an address and, as every user of the
    repository, no identifier. *)
Lemma despacho_resultados_witness :
  exists resp w' evs,
    @enviar_informe_pdf (Ejemplo.externos None) 1 Ejemplo.mundo = (Ok resp, w')
    /\ bitacora w' = evs
    /\ status resp = HTTP_400_BAD_REQUEST
    /\ lotes w' = lotes Ejemplo.mundo
    /\ existsb es_correo evs = false.
Proof.
  destruct (@despacho_resultados (Ejemplo.externos None) 1 Ejemplo.mundo
              (Ejemplo.en_tabla 1 (Ejemplo.lote_de 1 "L-001" 1000 500 (Some 8000) (Some 500)))
              Ejemplo.ana eq_refl eq_refl)
    as (resp & w' & evs & Hrun & Hlog & _ & _ & Hcasos).
  exists resp, w', evs. split; [exact Hrun|]. split; [exact Hlog|].
  assert (Hst : status resp = HTTP_400_BAD_REQUEST).
  { pose proof (f_equal fst Hrun) as Hfst. vm_compute in Hfst.
    injection Hfst as <-. reflexivity. }
  split; [exact Hst|].
  destruct Hcasos as [(Hok & _) | (_ & Ht & Hmail)].
  - exfalso. rewrite Hst in Hok. discriminate.
  - split; [exact Ht | exact Hmail].
Defined.

(** ** Well-formed tables stay well-formed *)

Lemma save_calculo_pares (o : LoteProcesado) :
  grano_bueno (save_calculo o) = None <-> grano_defectuoso (save_calculo o) = None.
Proof.
  unfold save_calculo.
  destruct (grano_defectuoso o) eqn:Hd, (grano_bueno o) eqn:Hb; simpl;
    rewrite ?Hd, ?Hb; split; congruence.
Qed.

(** Writing one row that satisfies the constraints keeps the table
    well-formed. *)
Lemma bien_formado_insert (w w' : Mundo) (k : Z) (o : LoteProcesado) :
  bien_formado w ->
  lotes w' = <[k := o]> (lotes w) ->
  usuarios w' = usuarios w ->
  secuencia w <= secuencia w' ->
  k < secuencia w' ->
  pk o = Some k ->
  is_Some (humedad o) -> is_Some (impurezas o) ->
  (forall k' r, lotes w !! k' = Some r -> k' = k \/ codigo_lote r <> codigo_lote o) ->
  is_Some (usuarios w !! cliente o) ->
  (grano_bueno o = None <-> grano_defectuoso o = None) ->
  bien_formado w'.
Proof.
  intros [Bpk Bseq Buni Bcli Bnn Bpar] Ht Hu Hs Hk Hpk Hh Hi Huniq Hcli Hpar.
  assert (Hlook : forall k' r, lotes w' !! k' = Some r ->
                    (k' = k /\ r = o) \/ (k' <> k /\ lotes w !! k' = Some r)).
  { intros k' r. rewrite Ht. destruct (decide (k' = k)) as [->|Hne].
    - rewrite lookup_insert_eq. intros [= <-]. left; auto.
    - rewrite lookup_insert_ne by congruence. right; auto. }
  constructor.
  - intros k' r [[-> ->] | [_ Hr]]%Hlook; eauto.
  - intros k' r [[-> ->] | [_ Hr]]%Hlook; [lia|]. specialize (Bseq k' r Hr). lia.
  - intros k1 k2 f1 f2 [[-> ->] | [Hn1 Hr1]]%Hlook [[-> ->] | [Hn2 Hr2]]%Hlook Hcod.
    + reflexivity.
    + destruct (Huniq k2 f2 Hr2) as [-> | Hne]; [reflexivity | congruence].
    + destruct (Huniq k1 f1 Hr1) as [-> | Hne]; [reflexivity | congruence].
    + eauto.
  - intros k' r [[-> ->] | [_ Hr]]%Hlook; rewrite Hu; eauto.
  - intros k' r [[-> ->] | [_ Hr]]%Hlook; eauto.
  - intros k' r [[-> ->] | [_ Hr]]%Hlook; eauto.
Qed.

Lemma bien_formado_igual (w w' : Mundo) :
  bien_formado w ->
  lotes w' = lotes w -> usuarios w' = usuarios w -> secuencia w' = secuencia w ->
  bien_formado w'.
Proof.
  intros [Bpk Bseq Buni Bcli Bnn Bpar] Ht Hu Hs.
  constructor; rewrite ?Ht, ?Hu, ?Hs; assumption.
Qed.

Section Invariante.

Context `{Externos}.

(** X13. Every route keeps the table well-formed, whatever the request
    and whatever the libraries do, and also when the view raises: stored
    rows carry their key, keys stay below the sequence, lot codes stay
    unique, clients exist, humidity and impurities are present, and no
    row has exactly one of the two derived percentages. *)
Theorem rutas_conservan_bien_formado (r : Ruta) (w w' : Mundo) (res : Res Response) :
  bien_formado w ->
  urlpatterns r w = (res, w') ->
  bien_formado w'.
Proof.
  intros Hbf Hrun. destruct r as [data | method k data | k]; simpl in Hrun.
  - rewrite registrar_lote_corre in Hrun.
    destruct (is_valid None false data w); [injection Hrun as _ <-; exact Hbf|].
    destruct (nuevo_lote d); [|injection Hrun as _ <-; exact Hbf].
    cbv zeta in Hrun.
    destruct (restricciones _ _ _ w) eqn:Hres; simpl in Hrun;
      [|injection Hrun as _ <-; exact Hbf].
    destruct (bool_decide (lotes w !! secuencia w = None)); simpl in Hrun;
      [|injection Hrun as _ <-; exact Hbf].
    injection Hrun as _ <-.
    apply restricciones_todos in Hres as (Hh & Hi & Huniq & Hcli).
    eapply (bien_formado_insert w _ (secuencia w)); eauto; simpl; try lia.
    apply save_calculo_pares.
  - rewrite actualizar_lote_corre in Hrun.
    destruct (lotes w !! k) as [fila|] eqn:Hrow; [|injection Hrun as _ <-; exact Hbf].
    destruct (is_valid _ _ data w); [injection Hrun as _ <-; exact Hbf|].
    cbv zeta in Hrun.
    destruct (restricciones _ _ _ w) eqn:Hres; [|injection Hrun as _ <-; exact Hbf].
    injection Hrun as _ <-.
    apply restricciones_todos in Hres as (Hh & Hi & Huniq & Hcli).
    eapply (bien_formado_insert w _ k); eauto; simpl; try lia.
    + apply (bf_secuencia w Hbf k fila Hrow).
    + apply save_calculo_enviado.
    + apply save_calculo_pares.
  - destruct (lotes w !! k) as [fila|] eqn:Hrow.
    + destruct (bf_cliente w Hbf k fila Hrow) as [u Hu].
      destruct (despacho_casos k w fila u Hrow Hu)
        as (resp & w1 & evs & Hrun1 & _ & Husr & Hseq & Hcasos).
      rewrite Hrun1 in Hrun. injection Hrun as _ <-.
      destruct Hcasos as [(_ & Ht & _) | (_ & Ht & _)].
      * destruct Hbf as [Bpk Bseq Buni Bcli Bnn Bpar].
        eapply (bien_formado_insert w w1 k (set_enviado true fila));
          [constructor; assumption | exact Ht | exact Husr | lia | | | | | | |];
          simpl; eauto.
        -- rewrite Hseq. eauto.
        -- apply (Bnn k fila Hrow).
        -- apply (Bnn k fila Hrow).
        -- intros k' r' Hr'. destruct (decide (k' = k)) as [->|Hne]; [left; reflexivity|].
           right. intros Hcod. apply Hne. eapply Buni; eauto.
      * eapply bien_formado_igual; eauto.
    + unfold enviar_informe_pdf, api_view, try_except, bind, get_object_or_404 in Hrun.
      rewrite Hrow in Hrun. injection Hrun as _ <-. exact Hbf.
Qed.

(** X14. Only a dispatch answered with 200 flags a lot as delivered.  If
    after any route the row of key [k] is flagged, then it was flagged
    before, or the route was the dispatch of [k] and the answer was 200. *)
Theorem solo_el_despacho_marca_enviado
    (r : Ruta) (w w' : Mundo) (res : Res Response) (k : Z) (fila' : LoteProcesado) :
  urlpatterns r w = (res, w') ->
  lotes w' !! k = Some fila' ->
  enviado fila' = true ->
  (exists fila, lotes w !! k = Some fila /\ enviado fila = true)
  \/ (r = lote_send_informe k
      /\ exists resp, res = Ok resp /\ status resp = HTTP_200_OK).
Proof.
  intros Hrun Hrow' Henv.
  destruct r as [data | method k0 data | k0]; simpl in Hrun.
  - rewrite registrar_lote_corre in Hrun.
    destruct (is_valid None false data w); [injection Hrun as _ <-; eauto|].
    destruct (nuevo_lote d) as [o|] eqn:Hnew; [|injection Hrun as _ <-; eauto].
    cbv zeta in Hrun.
    destruct (restricciones _ _ _ w && _); [|injection Hrun as _ <-; eauto].
    injection Hrun as _ <-. simpl in Hrow'.
    destruct (decide (k = secuencia w)) as [->|Hne].
    + rewrite lookup_insert_eq in Hrow'. injection Hrow' as <-.
      simpl in Henv. rewrite (proj1 (save_calculo_enviado o)) in Henv.
      rewrite (proj2 (nuevo_lote_inicial d o Hnew)) in Henv. discriminate.
    + rewrite lookup_insert_ne in Hrow' by congruence. eauto.
  - rewrite actualizar_lote_corre in Hrun.
    destruct (lotes w !! k0) as [fila|] eqn:Hrow; [|injection Hrun as _ <-; eauto].
    destruct (is_valid _ _ data w); [injection Hrun as _ <-; eauto|].
    cbv zeta in Hrun.
    destruct (restricciones _ _ _ w); [|injection Hrun as _ <-; eauto].
    injection Hrun as _ <-. simpl in Hrow'.
    destruct (decide (k = k0)) as [->|Hne].
    + rewrite lookup_insert_eq in Hrow'. injection Hrow' as <-.
      rewrite (proj1 (save_calculo_enviado _)) in Henv. simpl in Henv. eauto.
    + rewrite lookup_insert_ne in Hrow' by congruence. eauto.
  - destruct (lotes w !! k0) as [fila|] eqn:Hrow.
    + destruct (usuarios w !! cliente fila) as [u|] eqn:Hu.
      * destruct (despacho_casos k0 w fila u Hrow Hu)
          as (resp & w1 & evs & Hrun1 & _ & _ & _ & Hcasos).
        rewrite Hrun1 in Hrun. injection Hrun as <- <-.
        destruct Hcasos as [(Hst & Ht & _) | (_ & Ht & _)].
        -- rewrite Ht in Hrow'. destruct (decide (k = k0)) as [->|Hne].
           ++ right. eauto.
           ++ rewrite lookup_insert_ne in Hrow' by congruence. eauto.
        -- rewrite Ht in Hrow'. eauto.
      * unfold enviar_informe_pdf, api_view, try_except, bind, get_object_or_404,
          lote_cliente in Hrun.
        rewrite Hrow in Hrun. simpl in Hrun. rewrite Hu in Hrun.
        injection Hrun as _ <-. eauto.
    + unfold enviar_informe_pdf, api_view, try_except, bind, get_object_or_404 in Hrun.
      rewrite Hrow in Hrun. injection Hrun as _ <-. eauto.
Qed.

End Invariante.

(** The three rows of the concrete table. *)
Lemma Ejemplo_filas (k : Z) (fila : LoteProcesado) :
  lotes Ejemplo.mundo !! k = Some fila ->
  exists codigo,
    (k = 1 \/ k = 2 \/ k = 3)
    /\ codigo = match k with 1 => "L-001" | 2 => "L-002" | _ => "L-003" end%string
    /\ fila = Ejemplo.en_tabla k (Ejemplo.lote_de k codigo 1000 500 (Some 8000) (Some 500)).
Proof.
  unfold Ejemplo.mundo. cbn [lotes]. intros Hrow.
  destruct (decide (k = 1)) as [->|H1].
  { rewrite lookup_insert_eq in Hrow. injection Hrow as <-. eexists; eauto. }
  rewrite lookup_insert_ne in Hrow by congruence.
  destruct (decide (k = 2)) as [->|H2].
  { rewrite lookup_insert_eq in Hrow. injection Hrow as <-. eexists; eauto. }
  rewrite lookup_insert_ne in Hrow by congruence.
  destruct (decide (k = 3)) as [->|H3].
  { rewrite lookup_insert_eq in Hrow. injection Hrow as <-. eexists; eauto. }
  rewrite lookup_insert_ne in Hrow by congruence.
  rewrite lookup_empty in Hrow. discriminate.
Qed.

Lemma Ejemplo_bien_formado : bien_formado Ejemplo.mundo.
Proof.
  constructor.
  - intros k fila (c & _ & _ & ->)%Ejemplo_filas. reflexivity.
  - intros k fila (c & Hk & _ & _)%Ejemplo_filas. simpl. lia.
  - intros k1 k2 f1 f2 (c1 & Hk1 & -> & ->)%Ejemplo_filas
      (c2 & Hk2 & -> & ->)%Ejemplo_filas Hcod.
    destruct Hk1 as [-> | [-> | ->]], Hk2 as [-> | [-> | ->]];
      try reflexivity; vm_compute in Hcod; discriminate.
  - intros k fila (c & Hk & _ & ->)%Ejemplo_filas.
    destruct Hk as [-> | [-> | ->]]; eexists; reflexivity.
  - intros k fila (c & _ & _ & ->)%Ejemplo_filas. split; eexists; reflexivity.
  - intros k fila (c & _ & _ & ->)%Ejemplo_filas. simpl. split; discriminate.
Qed.

Lemma rutas_conservan_bien_formado_witness :
  bien_formado
    (snd (@urlpatterns (Ejemplo.externos None)
            (lote_create (Ejemplo.datos 1 "L-009" 8000 8000 (Some (Some 1000)) None))
            Ejemplo.mundo)).
Proof.
  eapply (@rutas_conservan_bien_formado (Ejemplo.externos None)
            (lote_create (Ejemplo.datos 1 "L-009" 8000 8000 (Some (Some 1000)) None))
            Ejemplo.mundo).
  - exact Ejemplo_bien_formado.
  - apply surjective_pairing.
Defined.

(** Lot 1 already flagged in the table (by hand, outside the routes):
    an update that changes its humidity keeps the flag, and the theorem
    answers that it was flagged before. *)
Lemma solo_el_despacho_marca_enviado_witness :
  let ext := Ejemplo.externos None in
  let fila := Ejemplo.en_tabla 1 (Ejemplo.lote_de 1 "L-001" 1000 500 (Some 8000) (Some 500)) in
  let w := set_lotes (<[1 := set_enviado true fila]> (lotes Ejemplo.mundo)) Ejemplo.mundo in
  let r := lote_update PATCH 1
             (mkDatos None None None None None (Some 500) None None None None) in
  (exists fila0, lotes w !! 1 = Some fila0 /\ enviado fila0 = true)
  \/ (r = lote_send_informe 1
      /\ exists resp, fst (@urlpatterns ext r w) = Ok resp
                      /\ status resp = HTTP_200_OK).
Proof.
  intros ext fila w r.
  eapply (@solo_el_despacho_marca_enviado ext r w).
  - apply surjective_pairing.
  - vm_compute. reflexivity.
  - reflexivity.
Defined.

(** ** An update without fields *)

Lemma asignar_vacios (o : LoteProcesado) : asignar datos_vacios o = o.
Proof. destruct o; reflexivity. Qed.

Lemma set_lotes_id (w : Mundo) : set_lotes (lotes w) w = w.
Proof. destruct w; reflexivity. Qed.

Section ActualizacionVacia.

Context `{Externos}.

(** X15. On a well-formed table a PATCH without fields is answered from
    the stored row alone.  When its four percentages are present and add
    up to more than 100 the request is rejected with the sum error and
    nothing changes; otherwise it is answered 200 with the row as it is,
    the table is unchanged and the update is logged. *)
Theorem patch_vacio (k : Z) (w : Mundo) (fila : LoteProcesado) :
  bien_formado w ->
  lotes w !! k = Some fila ->
  actualizar_lote PATCH k datos_vacios w
  = if suma_excede fila
    then (Ok (mkResponse HTTP_400_BAD_REQUEST (CuerpoErrores [SumaPorcentajes])), w)
    else (Ok (mkResponse HTTP_200_OK (CuerpoLote fila)),
          anotar (Log INFO (LoteActualizado k)) w).
Proof.
  intros Hbf Hrow.
  rewrite actualizar_lote_corre, Hrow.
  rewrite (set_pk_id fila k (bf_pk w Hbf k fila Hrow)).
  assert (Hval : is_valid (Some fila) (es_PATCH PATCH) datos_vacios w
                 = if suma_excede fila then inl [SumaPorcentajes] else inr datos_vacios).
  { unfold is_valid, to_internal_value, validate, suma_excede. simpl.
    destruct (humedad fila), (impurezas fila), (grano_bueno fila),
      (grano_defectuoso fila); try reflexivity.
    destruct (_ >? _); reflexivity. }
  rewrite Hval. destruct (suma_excede fila); [reflexivity|].
  cbv zeta. rewrite asignar_vacios.
  assert (Hid : save_calculo fila = fila).
  { pose proof (bf_pares w Hbf k fila Hrow) as [Hp1 Hp2]. unfold save_calculo.
    destruct (grano_defectuoso fila), (grano_bueno fila); try reflexivity.
    - discriminate (Hp1 eq_refl).
    - discriminate (Hp2 eq_refl). }
  rewrite Hid.
  assert (Hres : restricciones todos_los_campos k fila w = true).
  { destruct (bf_no_nulos w Hbf k fila Hrow) as [Hh Hi].
    assert (Hlibre : codigo_libre k (codigo_lote fila) (lotes w) = true).
    { unfold codigo_libre. apply bool_decide_eq_true_2. intros k' r Hr.
      destruct (decide (k' = k)) as [->|Hne]; [left; reflexivity|].
      right. intros Hcod. apply Hne.
      exact (bf_unico w Hbf k' k r fila Hr Hrow Hcod). }
    unfold restricciones.
    rewrite (bool_decide_eq_true_2 _ Hh), (bool_decide_eq_true_2 _ Hi), Hlibre,
      (bool_decide_eq_true_2 _ (bf_cliente w Hbf k fila Hrow)).
    rewrite !orb_true_r. reflexivity. }
  rewrite Hres, insert_id by exact Hrow.
  rewrite set_lotes_id. reflexivity.
Qed.

End ActualizacionVacia.

(** Lot 1 adds up to exactly 100: the empty PATCH is accepted. *)
Lemma patch_vacio_witness :
  @actualizar_lote (Ejemplo.externos None) PATCH 1 datos_vacios Ejemplo.mundo
  = (Ok (mkResponse HTTP_200_OK
           (CuerpoLote (Ejemplo.en_tabla 1
                          (Ejemplo.lote_de 1 "L-001" 1000 500 (Some 8000) (Some 500))))),
     anotar (Log INFO (LoteActualizado 1)) Ejemplo.mundo).
Proof.
  exact (@patch_vacio (Ejemplo.externos None) 1 Ejemplo.mundo _
           Ejemplo_bien_formado eq_refl).
Defined.
